(** * The install-config asset: synthesis (Generate) and reconciliation (Load)

    A shallow embedding of [pkg/asset/installconfig/installconfig.go].

    The Go packages the file imports are kept as modules of the same name, so
    that the embedded functions read like their source: [os.IsNotExist],
    [errors.Wrap], [asset.File], [types.InstallConfig], [logrus.Warnf], ...
    Declarations that live outside the file (the platform structs, the CIDR
    type, the YAML codec, the validator) are interfaces: type classes whose
    methods the functions call, and over which every theorem is generic. *)

From Stdlib Require Import ZArith String Ascii List Lia.
From Stdlib Require Import Strings.Byte.
From Stdlib Require DecimalString.
From stdpp Require Import base option list strings gmap.
Import ListNotations.

Local Open Scope string_scope.
Local Open Scope list_scope.
Local Open Scope Z_scope.

(** ** Go strings and formatting verbs *)

(** The double quote character. *)
Definition dquote : ascii := ascii_of_nat 34.
Definition backslash : ascii := ascii_of_nat 92.

(** [%q] of [fmt]: the operand as a double-quoted Go string literal.  Quotes
    and backslashes are escaped; the strings formatted here are printable
    ASCII, which needs no other escape. *)
Fixpoint escape (s : string) : string :=
  match s with
  | EmptyString => EmptyString
  | String c rest =>
      if Ascii.eqb c dquote || Ascii.eqb c backslash
      then String backslash (String c (escape rest))
      else String c (escape rest)
  end.

Definition verb_q (s : string) : string :=
  String dquote (escape s +:+ String dquote EmptyString).

(** [strings.Contains]: whether [substr] occurs in [s]. *)
Fixpoint has_prefix (p s : string) : bool :=
  match p, s with
  | EmptyString, _ => true
  | String a p', String b s' => Ascii.eqb a b && has_prefix p' s'
  | String _ _, EmptyString => false
  end.

Fixpoint Contains (s substr : string) : bool :=
  has_prefix substr s ||
  match s with
  | EmptyString => false
  | String _ s' => Contains s' substr
  end.

(** ** Error values *)

(** The errno values a file read distinguishes. *)
Inductive Errno : Type := ENOENT | EACCES | EIO.

Module field.
(** A field error of the validator: a field path and a message. *)
Record Error : Type := { Field : string; Detail : string }.
(** [field.ErrorList]: the validation verdict. *)
Definition ErrorList : Type := list Error.
End field.

(** Go's [error] interface, closed over the error values this file can see:
    a path error of the file system, an opaque error carrying its text, the
    aggregate of a non-empty verdict, and pkg/errors' wrapper, which keeps
    its cause and adds a message.  A nil [error] is [None : option error]. *)
Inductive error : Type :=
| PathError (op path : string) (errno : Errno)
| New (text : string)
| Aggregate (errs : field.ErrorList)
| WithMessage (cause : error) (msg : string).

Definition Errno_text (e : Errno) : string :=
  match e with
  | ENOENT => "no such file or directory"
  | EACCES => "permission denied"
  | EIO => "input/output error"
  end.

Definition field_text (e : field.Error) : string :=
  field.Field e +:+ ": " +:+ field.Detail e.

Fixpoint join (sep : string) (l : list string) : string :=
  match l with
  | [] => ""
  | [x] => x
  | x :: rest => x +:+ sep +:+ join sep rest
  end.

(** The [Error()] method. *)
Fixpoint Error (e : error) : string :=
  match e with
  | PathError op path errno => op +:+ " " +:+ path +:+ ": " +:+ Errno_text errno
  | New text => text
  | Aggregate [x] => field_text x
  | Aggregate errs => "[" +:+ join ", " (map field_text errs) +:+ "]"
  | WithMessage cause msg => msg +:+ ": " +:+ Error cause
  end.

Module os.
(** [os.IsNotExist]: true of a path error whose errno is ENOENT.  It does
    not look through pkg/errors' wrapper. *)
Definition IsNotExist (err : error) : bool :=
  match err with
  | PathError _ _ ENOENT => true
  | _ => false
  end.
End os.

Module errors.
(** [errors.Wrap(err, message)] for a non-nil [err], which is what every
    call site passes (each is guarded by [err != nil]). *)
Definition Wrap (err : error) (message : string) : error :=
  WithMessage err message.
(** [errors.Wrapf(err, format, args...)], the format already expanded. *)
Definition Wrapf (err : error) (formatted : string) : error :=
  WithMessage err formatted.
(** The message added by the outermost wrapper, if the error is wrapped. *)
Definition context (err : error) : option string :=
  match err with
  | WithMessage _ msg => Some msg
  | _ => None
  end.
End errors.

(** [ErrorList.ToAggregate]: nil for the empty verdict, the aggregate of the
    field errors otherwise. *)
Definition ToAggregate (list : field.ErrorList) : option error :=
  match list with
  | [] => None
  | _ :: _ => Some (Aggregate list)
  end.

(** ** The effects of the file: a small state monad with panics *)

(** What a call leaves behind: its result and the state it reached, or a
    panic with the value it was raised with and the state at that moment. *)
Inductive result (S A : Type) : Type :=
| Returned (x : A) (s : S)
| Panicked (v : string) (s : S).
Arguments Returned {S A} x s.
Arguments Panicked {S A} v s.

Definition M (S A : Type) : Type := S -> result S A.

#[global] Instance M_ret {S} : MRet (M S) := fun A x s => Returned x s.
#[global] Instance M_bind {S} : MBind (M S) := fun A B k m s =>
  match m s with
  | Returned x s' => k x s'
  | Panicked v s' => Panicked v s'
  end.

Definition panic {S A} (v : string) : M S A := fun s => Panicked v s.
Definition get {S} : M S S := fun s => Returned s s.
Definition modify {S} (f : S -> S) : M S unit := fun s => Returned tt (f s).

(** Run a computation on a component of the state. *)
Definition zoom {S T A} (proj : S -> T) (inj : T -> S -> S) (m : M T A) : M S A :=
  fun s =>
    match m (proj s) with
    | Returned x t => Returned x (inj t s)
    | Panicked v t => Panicked v (inj t s)
    end.

(** The observable events of a load: calls of the file fetcher and warnings
    written to the log, in the order they happen. *)
Inductive event : Type :=
| Fetch (name : string)
| Warning (msg : string).

Definition emit (e : event) : M (list event) unit :=
  modify (fun log => log ++ [e]).

Module logrus.
(** [logrus.Warnf(format, args...)], the format already expanded. *)
Definition Warnf (formatted : string) : M (list event) unit :=
  emit (Warning formatted).
End logrus.


(** ** Declarations outside the file, as interfaces *)

Module asset.
(** [asset.File]: a named byte payload. *)
Record File : Type := { Filename : string; Data : list byte }.

(** [asset.FileFetcher]: [FetchByName(name)] returns Go's pair of a file
    pointer and an error, either of which may be nil. *)
Class FileFetcher (F : Type) : Type :=
  FetchByName : F -> string -> option File * option error.
End asset.

(** The platform structs of [pkg/types/aws], [libvirt], [none] and
    [openstack]: the file copies pointers to them and never looks inside. *)
Class PlatformDecls : Type := {
  aws_Platform : Type;
  libvirt_Platform : Type;
  none_Platform : Type;
  openstack_Platform : Type
}.

Module ipnet.
(** [pkg/ipnet]: the CIDR type, its zero value and its parser. *)
Class Decl : Type := {
  IPNet : Type;
  Zero : IPNet;
  MustParseCIDR : string -> IPNet
}.
End ipnet.

Module libvirt.
(** [pkg/asset/installconfig/libvirt]: the machine CIDR of that platform. *)
Class Decl {IPN : ipnet.Decl} : Type :=
  DefaultMachineCIDR : ipnet.IPNet.
End libvirt.

Module metav1.
Record ObjectMeta : Type := { Name : string }.
End metav1.

Module netopv1.
Record ClusterNetwork : Type := { CIDR : string; HostSubnetLength : Z }.
End netopv1.

(** [pkg/types]: the install configuration.  A field whose Go name Rocq
    reserves or that would clash with its own type has a trailing
    underscore ([Type_], [Networking_], [Platform_], the last being the
    embedded struct).  Fields this file never touches are left out. *)
Module types.
Section Decls.
Context {PD : PlatformDecls} {IPN : ipnet.Decl}.

Record Networking : Type := {
  Type_ : string;
  MachineCIDR : ipnet.IPNet;
  ServiceCIDR : ipnet.IPNet;
  ClusterNetworks : list netopv1.ClusterNetwork
}.

Record MachinePool : Type := { Name : string; Replicas : option Z }.

Record Platform : Type := {
  AWS : option aws_Platform;
  Libvirt : option libvirt_Platform;
  None : option none_Platform;
  OpenStack : option openstack_Platform
}.

Record InstallConfig : Type := {
  ObjectMeta : metav1.ObjectMeta;
  ClusterID : string;
  SSHKey : string;
  BaseDomain : string;
  Networking_ : Networking;
  Machines : list MachinePool;
  Platform_ : Platform;
  PullSecret : string
}.

End Decls.
End types.

Module yaml.
(** [github.com/ghodss/yaml]: [Marshal] of a configuration pointer gives
    bytes and an error; [Unmarshal(data, config)] fills the configuration
    [config] points to and gives an error. *)
Class Codec {PD : PlatformDecls} {IPN : ipnet.Decl} : Type := {
  Marshal : option types.InstallConfig -> list byte * option error;
  Unmarshal : list byte -> types.InstallConfig -> types.InstallConfig * option error
}.
End yaml.

Module validation.
(** [pkg/types/validation] with [openstackvalidation]'s fetcher of valid
    values: the external validator and its verdict. *)
Class Decl {PD : PlatformDecls} {IPN : ipnet.Decl} : Type := {
  ValidValuesFetcher : Type;
  NewValidValuesFetcher : ValidValuesFetcher;
  ValidateInstallConfig : types.InstallConfig -> ValidValuesFetcher -> field.ErrorList
}.
End validation.


(** ** Package installconfig *)

Definition installConfigFilename : string := "install-config.yaml".
Definition deprecatedInstallConfigFilename : string := "install-config.yml".

(** Go's conversions to fixed-width integers, wrap-around written out. *)
Definition uint32 (x : Z) : Z := x mod 2 ^ 32.
Definition int64 (x : Z) : Z := (x + 2 ^ 63) mod 2 ^ 64 - 2 ^ 63.

(** The value a nil pointer dereference panics with. *)
Definition nilDereference : string :=
  "runtime error: invalid memory address or nil pointer dereference".
Definition indexOutOfRange : string := "runtime error: index out of range".

(** The parent assets, each with the field [Generate] reads. *)
Record clusterID : Type := { ClusterID : string }.
Record sshPublicKey : Type := { Key : string }.
Record baseDomain : Type := { BaseDomain : string }.
Record clusterName : Type := { ClusterName : string }.
Record pullSecret : Type := { PullSecret : string }.

Section Installconfig.
Context {PD : PlatformDecls} {IPN : ipnet.Decl}.

(** The platform asset embeds [types.Platform]. *)
Record platform : Type := { Platform : types.Platform }.

(** [asset.Parents] restricted to the dependencies of this asset (the six
    that [Dependencies] lists), already resolved; [parents.Get] copies each
    into the local of the same name. *)
Record Parents : Type := {
  Get_clusterID : clusterID;
  Get_sshPublicKey : sshPublicKey;
  Get_baseDomain : baseDomain;
  Get_clusterName : clusterName;
  Get_pullSecret : pullSecret;
  Get_platform : platform
}.

(** [InstallConfig], the asset: two pointers, nil until set. *)
Record InstallConfig : Type := {
  Config : option types.InstallConfig;
  File : option asset.File
}.

Definition defaultMachineCIDR : ipnet.IPNet := ipnet.MustParseCIDR "10.0.0.0/16".
Definition defaultServiceCIDR : ipnet.IPNet := ipnet.MustParseCIDR "172.30.0.0/16".
Definition defaultClusterCIDR : string := "10.128.0.0/14".
Definition defaultHostSubnetLength : Z := 9.

(** Assignments through the pointers. *)
Definition set_Config (c : option types.InstallConfig) (a : InstallConfig) : InstallConfig :=
  {| Config := c; File := File a |}.
Definition set_File (f : option asset.File) (a : InstallConfig) : InstallConfig :=
  {| Config := Config a; File := f |}.

Definition with_Platform (f : types.Platform -> types.Platform)
    (c : types.InstallConfig) : types.InstallConfig :=
  {| types.ObjectMeta := types.ObjectMeta c;
     types.ClusterID := types.ClusterID c;
     types.SSHKey := types.SSHKey c;
     types.BaseDomain := types.BaseDomain c;
     types.Networking_ := types.Networking_ c;
     types.Machines := types.Machines c;
     types.Platform_ := f (types.Platform_ c);
     types.PullSecret := types.PullSecret c |}.

Definition set_AWS (v : option aws_Platform) : types.InstallConfig -> types.InstallConfig :=
  with_Platform (fun p =>
    {| types.AWS := v; types.Libvirt := types.Libvirt p;
       types.None := types.None p; types.OpenStack := types.OpenStack p |}).
Definition set_Libvirt (v : option libvirt_Platform) : types.InstallConfig -> types.InstallConfig :=
  with_Platform (fun p =>
    {| types.AWS := types.AWS p; types.Libvirt := v;
       types.None := types.None p; types.OpenStack := types.OpenStack p |}).
Definition set_None (v : option none_Platform) : types.InstallConfig -> types.InstallConfig :=
  with_Platform (fun p =>
    {| types.AWS := types.AWS p; types.Libvirt := types.Libvirt p;
       types.None := v; types.OpenStack := types.OpenStack p |}).
Definition set_OpenStack (v : option openstack_Platform) : types.InstallConfig -> types.InstallConfig :=
  with_Platform (fun p =>
    {| types.AWS := types.AWS p; types.Libvirt := types.Libvirt p;
       types.None := types.None p; types.OpenStack := v |}).

Definition set_MachineCIDR (v : ipnet.IPNet) (c : types.InstallConfig) : types.InstallConfig :=
  {| types.ObjectMeta := types.ObjectMeta c;
     types.ClusterID := types.ClusterID c;
     types.SSHKey := types.SSHKey c;
     types.BaseDomain := types.BaseDomain c;
     types.Networking_ :=
       {| types.Type_ := types.Type_ (types.Networking_ c);
          types.MachineCIDR := v;
          types.ServiceCIDR := types.ServiceCIDR (types.Networking_ c);
          types.ClusterNetworks := types.ClusterNetworks (types.Networking_ c) |};
     types.Machines := types.Machines c;
     types.Platform_ := types.Platform_ c;
     types.PullSecret := types.PullSecret c |}.

Definition set_Machines (v : list types.MachinePool) (c : types.InstallConfig) : types.InstallConfig :=
  {| types.ObjectMeta := types.ObjectMeta c;
     types.ClusterID := types.ClusterID c;
     types.SSHKey := types.SSHKey c;
     types.BaseDomain := types.BaseDomain c;
     types.Networking_ := types.Networking_ c;
     types.Machines := v;
     types.Platform_ := types.Platform_ c;
     types.PullSecret := types.PullSecret c |}.

(** [a.Config.x = v]: an assignment through [a.Config], which panics when
    the pointer is nil. *)
Definition assignConfig (upd : types.InstallConfig -> types.InstallConfig) : M InstallConfig unit :=
  fun a =>
    match Config a with
    | Some c => Returned tt (set_Config (Some (upd c)) a)
    | None => Panicked nilDereference a
    end.

(** The zero value of [types.Platform] and of [types.InstallConfig]. *)
Definition zeroPlatform : types.Platform :=
  {| types.AWS := None; types.Libvirt := None;
     types.None := None; types.OpenStack := None |}.

Definition zeroInstallConfig : types.InstallConfig :=
  {| types.ObjectMeta := {| metav1.Name := "" |};
     types.ClusterID := "";
     types.SSHKey := "";
     types.BaseDomain := "";
     types.Networking_ :=
       {| types.Type_ := "";
          types.MachineCIDR := ipnet.Zero;
          types.ServiceCIDR := ipnet.Zero;
          types.ClusterNetworks := [] |};
     types.Machines := [];
     types.Platform_ := zeroPlatform;
     types.PullSecret := "" |}.

(** The composite literal [Generate] first assigns to [a.Config]. *)
Definition initialConfig (parents : Parents) : types.InstallConfig :=
  {| types.ObjectMeta := {| metav1.Name := ClusterName (Get_clusterName parents) |};
     types.ClusterID := ClusterID (Get_clusterID parents);
     types.SSHKey := Key (Get_sshPublicKey parents);
     types.BaseDomain := BaseDomain (Get_baseDomain parents);
     types.Networking_ :=
       {| types.Type_ := "OpenshiftSDN";
          types.MachineCIDR := defaultMachineCIDR;
          types.ServiceCIDR := defaultServiceCIDR;
          types.ClusterNetworks :=
            [ {| netopv1.CIDR := defaultClusterCIDR;
                 netopv1.HostSubnetLength := uint32 defaultHostSubnetLength |} ] |};
     types.Machines := [];
     types.Platform_ := zeroPlatform;
     types.PullSecret := PullSecret (Get_pullSecret parents) |}.

Context {LV : libvirt.Decl} {YC : yaml.Codec}.

(** The [switch] of [Generate]: the first case whose pointer is not nil
    runs, and yields the two replica counts. *)
Definition switchPlatform (platform : types.Platform) (numberOfMasters numberOfWorkers : Z)
    : M InstallConfig (Z * Z) :=
  match types.AWS platform with
  | Some _ =>
      assignConfig (set_AWS (types.AWS platform)) ;;
      mret (numberOfMasters, numberOfWorkers)
  | None =>
  match types.Libvirt platform with
  | Some _ =>
      assignConfig (set_Libvirt (types.Libvirt platform)) ;;
      assignConfig (set_MachineCIDR libvirt.DefaultMachineCIDR) ;;
      mret (1, 1)
  | None =>
  match types.None platform with
  | Some _ =>
      assignConfig (set_None (types.None platform)) ;;
      mret (numberOfMasters, numberOfWorkers)
  | None =>
  match types.OpenStack platform with
  | Some _ =>
      assignConfig (set_OpenStack (types.OpenStack platform)) ;;
      mret (numberOfMasters, numberOfWorkers)
  | None => panic "unknown platform type"
  end end end end.

(** [Generate] generates the install-config.yaml file. *)
Definition Generate (parents : Parents) : M InstallConfig (option error) :=
  let platform := Platform (Get_platform parents) in
  modify (set_Config (Some (initialConfig parents))) ;;
  let numberOfMasters := int64 3 in
  let numberOfWorkers := int64 3 in
  '(numberOfMasters, numberOfWorkers) ← switchPlatform platform numberOfMasters numberOfWorkers;
  assignConfig (set_Machines
    [ {| types.Name := "master"; types.Replicas := Some numberOfMasters |};
      {| types.Name := "worker"; types.Replicas := Some numberOfWorkers |} ]) ;;
  a ← get;
  let '(data, err) := yaml.Marshal (Config a) in
  match err with
  | Some err => mret (Some (errors.Wrap err "failed to Marshal InstallConfig"))
  | None =>
      modify (set_File (Some {| asset.Filename := installConfigFilename; asset.Data := data |})) ;;
      mret None
  end.

(** [Name] returns the human-friendly name of the asset. *)
Definition Name (a : InstallConfig) : string := "Install Config".

(** [Files] returns the files generated by the asset. *)
Definition Files (a : InstallConfig) : list asset.File :=
  match File a with
  | Some f => [f]
  | None => []
  end.

(** The state a load runs in: the asset it is called on and the events
    observed so far. *)
Record World : Type := { receiver : InstallConfig; log : list event }.

Definition set_receiver (a : InstallConfig) (w : World) : World :=
  {| receiver := a; log := log w |}.
Definition set_log (l : list event) (w : World) : World :=
  {| receiver := receiver w; log := l |}.

(** [file.Filename = v], on the file a pointer refers to. *)
Definition set_Filename (v : string) (file : asset.File) : asset.File :=
  {| asset.Filename := v; asset.Data := asset.Data file |}.

(** The expansion of ["Using deprecated %s file. Use %s instead."]. *)
Definition deprecationWarning (name canonical : string) : string :=
  "Using deprecated " +:+ name +:+ " file. Use " +:+ canonical +:+ " instead.".

(** The loop of [fetchInstallConfigFile]: [rest] is what remains of
    [names] from index [i] on.  Each call of the fetcher is observed. *)
Fixpoint fetchLoop {F} {FF : asset.FileFetcher F} (f : F) (names : list string)
    (i : nat) (rest : list string) : M (list event) (option asset.File * option error) :=
  match rest with
  | [] => mret (None, None)
  | name :: rest' =>
      emit (Fetch name) ;;
      let '(file, err) := asset.FetchByName f name in
      match err with
      | None =>
          if negb (i =? 0)%nat then
            match names !! 0%nat with
            | Some names0 =>
                logrus.Warnf (deprecationWarning name names0) ;;
                match file with
                | Some file' => mret (Some (set_Filename names0 file'), None)
                | None => panic nilDereference
                end
            | None => panic indexOutOfRange
            end
          else mret (file, None)
      | Some err =>
          if negb (os.IsNotExist err) then mret (None, Some err)
          else fetchLoop f names (S i) rest'
      end
  end.

Definition fetchInstallConfigFile {F} {FF : asset.FileFetcher F} (f : F)
    : M (list event) (option asset.File * option error) :=
  let names := [installConfigFilename; deprecatedInstallConfigFilename] in
  fetchLoop f names 0 names.

Context {VD : validation.Decl}.

(** The expansion of ["invalid %q file"] at [installConfigFilename]. *)
Definition invalidFileMessage : string :=
  "invalid " +:+ verb_q installConfigFilename +:+ " file".

(** [Load] returns the installconfig from disk. *)
Definition Load {F} {FF : asset.FileFetcher F} (f : F) : M World (bool * option error) :=
  '(file, err) ← zoom log set_log (fetchInstallConfigFile f);
  match file with
  | None => mret (false, err)
  | Some file =>
      let '(config, err) := yaml.Unmarshal (asset.Data file) zeroInstallConfig in
      match err with
      | Some err => mret (false, Some (errors.Wrapf err "failed to unmarshal"))
      | None =>
          match ToAggregate (validation.ValidateInstallConfig config
                               validation.NewValidValuesFetcher) with
          | Some err => mret (false, Some (errors.Wrapf err invalidFileMessage))
          | None =>
              zoom receiver set_receiver
                (modify (fun a => {| Config := Some config; File := Some file |})) ;;
              mret (true, None)
          end
      end
  end.

End Installconfig.

(** ** Vocabulary of the properties *)

Section Vocabulary.
Context {PD : PlatformDecls} {IPN : ipnet.Decl} {YC : yaml.Codec}.

Definition isSet {A} (p : option A) : nat :=
  match p with
  | Some _ => 1%nat
  | None => 0%nat
  end.

(** How many platform variants are populated. *)
Definition populated (p : types.Platform) : nat :=
  (isSet (types.AWS p) + isSet (types.Libvirt p)
   + isSet (types.None p) + isSet (types.OpenStack p))%nat.

(** The platform with only its first populated variant kept, in the order
    of the cases of the [switch]. *)
Definition firstPopulated (p : types.Platform) : types.Platform :=
  match types.AWS p, types.Libvirt p, types.None p with
  | Some _, _, _ =>
      {| types.AWS := types.AWS p; types.Libvirt := None;
         types.None := None; types.OpenStack := None |}
  | None, Some _, _ =>
      {| types.AWS := None; types.Libvirt := types.Libvirt p;
         types.None := None; types.OpenStack := None |}
  | None, None, Some _ =>
      {| types.AWS := None; types.Libvirt := None;
         types.None := types.None p; types.OpenStack := None |}
  | None, None, None =>
      {| types.AWS := None; types.Libvirt := None;
         types.None := None; types.OpenStack := types.OpenStack p |}
  end.

Definition machinePools (masters workers : Z) : list types.MachinePool :=
  [ {| types.Name := "master"; types.Replicas := Some masters |};
    {| types.Name := "worker"; types.Replicas := Some workers |} ].

(** The end of [Generate], from the call of [yaml.Marshal] on, once
    [a.Config] points to [cfg]. *)
Definition materialize (cfg : types.InstallConfig) (a : InstallConfig)
    : result InstallConfig (option error) :=
  match yaml.Marshal (Some cfg) with
  | (data, None) =>
      Returned None
        {| Config := Some cfg;
           File := Some {| asset.Filename := installConfigFilename; asset.Data := data |} |}
  | (_, Some err) =>
      Returned (Some (errors.Wrap err "failed to Marshal InstallConfig"))
        {| Config := Some cfg; File := File a |}
  end.

(** The state a call ends in, whether it returned or panicked. *)
Definition finalState {S A} (r : result S A) : S :=
  match r with
  | Returned _ s => s
  | Panicked _ s => s
  end.

End Vocabulary.

Section DiscoveryVocabulary.
Context {F : Type} {FF : asset.FileFetcher F}.

(** The most file discovery ever does: ask for the canonical name, ask for
    the deprecated name, warn. *)
Definition discoveryEvents : list event :=
  [ Fetch installConfigFilename; Fetch deprecatedInstallConfigFilename;
    Warning (deprecationWarning deprecatedInstallConfigFilename installConfigFilename) ].

(** The fetcher reports that [name] does not exist. *)
Definition notFound (f : F) (name : string) : Prop :=
  exists x e, asset.FetchByName f name = (x, Some e) /\ os.IsNotExist e = true.

(** The fetcher fails on [name] with the error [e], which is not a
    not-found error. *)
Definition failsWith (f : F) (name : string) (e : error) : Prop :=
  exists x, asset.FetchByName f name = (x, Some e) /\ os.IsNotExist e = false.

(** A file the fetcher returns carries the name it was asked for. *)
Definition respectsNames (f : F) : Prop :=
  forall name file err,
    asset.FetchByName f name = (Some file, err) -> asset.Filename file = name.

End DiscoveryVocabulary.

(** ** Executable instances of the interfaces

    One concrete instance of every interface, on which the functions above
    evaluate: IPv4 CIDR blocks, a directory of files, a codec and a
    validator small enough to run. *)

Module Demo.

(** *** IPv4 CIDR blocks *)

Record IPv4Net : Type := { IP : list Z; PrefixLength : Z }.

Definition digitValue (c : ascii) : option Z :=
  let n := Z.of_nat (nat_of_ascii c) in
  if (48 <=? n) && (n <=? 57) then Some (n - 48) else None.

Fixpoint parseDigits (s : string) (acc : Z) : option Z :=
  match s with
  | EmptyString => Some acc
  | String c rest =>
      match digitValue c with
      | Some d => parseDigits rest (10 * acc + d)
      | None => None
      end
  end.

Definition parseDecimal (s : string) : option Z :=
  match s with
  | EmptyString => None
  | _ => parseDigits s 0
  end.

Fixpoint splitOn (sep : ascii) (s : string) : list string :=
  match s with
  | EmptyString => [EmptyString]
  | String c rest =>
      if Ascii.eqb c sep then EmptyString :: splitOn sep rest
      else match splitOn sep rest with
           | [] => [String c EmptyString]
           | w :: ws => String c w :: ws
           end
  end.

Definition octet (s : string) : option Z :=
  match parseDecimal s with
  | Some n => if n <=? 255 then Some n else None
  | None => None
  end.

Definition ParseCIDR (s : string) : option IPv4Net :=
  match splitOn "/"%char s with
  | [addr; bits] =>
      match map octet (splitOn "."%char addr), parseDecimal bits with
      | [Some a; Some b; Some c; Some d], Some n =>
          if n <=? 32 then Some {| IP := [a; b; c; d]; PrefixLength := n |} else None
      | _, _ => None
      end
  | _ => None
  end.

Definition zeroIPv4Net : IPv4Net := {| IP := []; PrefixLength := 0 |}.

#[export] Instance ipv4 : ipnet.Decl := {|
  ipnet.IPNet := IPv4Net;
  ipnet.Zero := zeroIPv4Net;
  ipnet.MustParseCIDR := fun s => default zeroIPv4Net (ParseCIDR s)
|}.

#[export] Instance libvirtCIDR : libvirt.Decl :=
  ipnet.MustParseCIDR "192.168.126.0/24".

(** *** Platform structs: a region, a connection URI, nothing, a cloud name *)

#[export] Instance platforms : PlatformDecls := {|
  aws_Platform := string;
  libvirt_Platform := string;
  none_Platform := unit;
  openstack_Platform := string
|}.

(** *** A directory of files *)

(** Modelled from the spec: the file storage behind [asset.FileFetcher]
    (its implementation is not part of the file under study).  A name maps
    to the bytes of a readable file or to the errno reading it fails with;
    a name that is absent fails with ENOENT, so that "not found" is
    distinguishable from any other failure. *)
Record Directory : Type := { entries : gmap string (list byte + Errno) }.

#[export] Instance Directory_fetcher : asset.FileFetcher Directory := fun d name =>
  match entries d !! name with
  | Some (inl data) => (Some {| asset.Filename := name; asset.Data := data |}, None)
  | Some (inr errno) => (None, Some (PathError "open" name errno))
  | None => (None, Some (PathError "open" name ENOENT))
  end.

(** *** A codec for the cluster name alone *)

Definition namePrefix : string := "name: ".

Fixpoint dropPrefix (p s : string) : option string :=
  match p, s with
  | EmptyString, _ => Some s
  | String a p', String b s' => if Ascii.eqb a b then dropPrefix p' s' else None
  | String _ _, EmptyString => None
  end.

Definition set_Name (v : string) (c : types.InstallConfig) : types.InstallConfig :=
  {| types.ObjectMeta := {| metav1.Name := v |};
     types.ClusterID := types.ClusterID c;
     types.SSHKey := types.SSHKey c;
     types.BaseDomain := types.BaseDomain c;
     types.Networking_ := types.Networking_ c;
     types.Machines := types.Machines c;
     types.Platform_ := types.Platform_ c;
     types.PullSecret := types.PullSecret c |}.

#[export] Instance nameCodec : yaml.Codec := {|
  yaml.Marshal := fun config =>
    match config with
    | Some c => (list_byte_of_string
                   (namePrefix +:+ metav1.Name (types.ObjectMeta c)), None)
    | None => (list_byte_of_string "null", None)
    end;
  yaml.Unmarshal := fun data config =>
    match dropPrefix namePrefix (string_of_list_byte data) with
    | Some name => (set_Name name config, None)
    | None => (config, Some (New "yaml: unmarshal errors"))
    end
|}.

(** A codec whose [Marshal] always fails. *)
Definition failingCodec : yaml.Codec := {|
  yaml.Marshal := fun _ => ([], Some (New "json: unsupported type"));
  yaml.Unmarshal := fun _ config => (config, Some (New "yaml: unmarshal errors"))
|}.

(** *** A validator that requires a cluster name *)

#[export] Instance nameValidator : validation.Decl := {|
  validation.ValidValuesFetcher := unit;
  validation.NewValidValuesFetcher := tt;
  validation.ValidateInstallConfig := fun c _ =>
    if String.eqb (metav1.Name (types.ObjectMeta c)) ""
    then [ {| field.Field := "metadata.name"; field.Detail := "Required value" |} ]
    else []
|}.

(** *** Sample inputs *)

Definition sampleParents (p : types.Platform) : Parents := {|
  Get_clusterID := {| ClusterID := "0f5d9c1e" |};
  Get_sshPublicKey := {| Key := "ssh-rsa AAAA" |};
  Get_baseDomain := {| BaseDomain := "example.com" |};
  Get_clusterName := {| ClusterName := "demo" |};
  Get_pullSecret := {| PullSecret := "{}" |};
  Get_platform := {| Platform := p |}
|}.

Definition onlyAWS : types.Platform :=
  {| types.AWS := Some "us-east-1"; types.Libvirt := None;
     types.None := None; types.OpenStack := None |}.
Definition onlyLibvirt : types.Platform :=
  {| types.AWS := None; types.Libvirt := Some "qemu+tcp://192.168.122.1/system";
     types.None := None; types.OpenStack := None |}.
Definition onlyNone : types.Platform :=
  {| types.AWS := None; types.Libvirt := None;
     types.None := Some tt; types.OpenStack := None |}.
Definition onlyOpenStack : types.Platform :=
  {| types.AWS := None; types.Libvirt := None;
     types.None := None; types.OpenStack := Some "mycloud" |}.
Definition awsAndLibvirt : types.Platform :=
  {| types.AWS := Some "us-east-1"; types.Libvirt := Some "qemu+tcp://192.168.122.1/system";
     types.None := None; types.OpenStack := None |}.

Definition emptyAsset : InstallConfig := {| Config := None; File := None |}.
Definition emptyWorld : World := {| receiver := emptyAsset; log := [] |}.

Definition bytes (s : string) : list byte := list_byte_of_string s.

Definition noFiles : Directory := {| entries := ∅ |}.
Definition canonicalOnly : Directory :=
  {| entries := {[ installConfigFilename := inl (bytes "name: demo") ]} |}.
Definition deprecatedOnly : Directory :=
  {| entries := {[ deprecatedInstallConfigFilename := inl (bytes "name: old") ]} |}.
Definition bothFiles : Directory :=
  {| entries := <[ installConfigFilename := inl (bytes "name: demo") ]>
                  {[ deprecatedInstallConfigFilename := inl (bytes "name: old") ]} |}.
Definition unreadableCanonical : Directory :=
  {| entries := <[ installConfigFilename := inr EACCES ]>
                  {[ deprecatedInstallConfigFilename := inl (bytes "name: old") ]} |}.
Definition garbageCanonical : Directory :=
  {| entries := {[ installConfigFilename := inl (bytes "{{{") ]} |}.
Definition namelessDeprecated : Directory :=
  {| entries := {[ deprecatedInstallConfigFilename := inl (bytes "name: ") ]} |}.

(** The asset after a first run of [Generate] on AWS, and an asset that
    still holds the file of an earlier cycle. *)
Definition generatedAWS : InstallConfig :=
  finalState (Generate (sampleParents onlyAWS) emptyAsset).
Definition staleAsset : InstallConfig :=
  {| Config := None;
     File := Some {| asset.Filename := installConfigFilename;
                     asset.Data := bytes "name: stale" |} |}.
Definition staleWorld : World := {| receiver := staleAsset; log := [] |}.

(** What file discovery returns on [namelessDeprecated], the events it
    leaves, and the configuration the codec reads from that file. *)
Definition namelessFile : asset.File :=
  {| asset.Filename := installConfigFilename; asset.Data := bytes "name: " |}.
Definition deprecatedEvents : list event :=
  [Fetch "install-config.yaml"; Fetch "install-config.yml";
   Warning "Using deprecated install-config.yml file. Use install-config.yaml instead."].
Definition namelessConfig : types.InstallConfig := set_Name "" zeroInstallConfig.

(** The asset after a run of [Generate] whose serialization fails. *)
Definition failedAsset : InstallConfig :=
  finalState (Generate (YC := failingCodec) (sampleParents onlyAWS) staleAsset).

Definition garbageFile : asset.File :=
  {| asset.Filename := installConfigFilename; asset.Data := bytes "{{{" |}.

(** *** A codec that keeps every field, one per line *)

Definition newline : ascii := ascii_of_nat 10.

Definition showZ (z : Z) : string :=
  DecimalString.NilZero.string_of_int (Z.to_int z).

Definition showCIDR (n : IPv4Net) : string :=
  match IP n with
  | [] => ""
  | _ => join "." (map showZ (IP n)) +:+ "/" +:+ showZ (PrefixLength n)
  end.

Definition readCIDR (s : string) : option IPv4Net :=
  if String.eqb s "" then Some zeroIPv4Net else ParseCIDR s.

Definition showPointer (o : option string) : string :=
  match o with
  | Some s => String "+"%char s
  | None => "-"
  end.

Definition readPointer (s : string) : option (option string) :=
  match s with
  | String c rest =>
      if Ascii.eqb c "+"%char then Some (Some rest)
      else if String.eqb s "-" then Some None else None
  | EmptyString => None
  end.

Definition showClusterNetwork (n : netopv1.ClusterNetwork) : string :=
  netopv1.CIDR n +:+ "," +:+ showZ (netopv1.HostSubnetLength n).

Definition readClusterNetwork (s : string) : option netopv1.ClusterNetwork :=
  match splitOn ","%char s with
  | [cidr; len] =>
      n ← parseDecimal len;
      Some {| netopv1.CIDR := cidr; netopv1.HostSubnetLength := n |}
  | _ => None
  end.

Definition showMachinePool (m : types.MachinePool) : string :=
  types.Name m +:+ ":" +:+
  match types.Replicas m with
  | Some n => showZ n
  | None => "nil"
  end.

Definition readMachinePool (s : string) : option types.MachinePool :=
  match splitOn ":"%char s with
  | [name; replicas] =>
      if String.eqb replicas "nil"
      then Some {| types.Name := name; types.Replicas := None |}
      else n ← parseDecimal replicas;
           Some {| types.Name := name; types.Replicas := Some n |}
  | _ => None
  end.

Definition readList {A} (item : string -> option A) (s : string) : option (list A) :=
  if String.eqb s "" then Some [] else mapM item (splitOn ";"%char s).

Definition encodeLines (c : types.InstallConfig) : list string :=
  [ "name=" +:+ metav1.Name (types.ObjectMeta c);
    "clusterID=" +:+ types.ClusterID c;
    "sshKey=" +:+ types.SSHKey c;
    "baseDomain=" +:+ types.BaseDomain c;
    "networkType=" +:+ types.Type_ (types.Networking_ c);
    "machineCIDR=" +:+ showCIDR (types.MachineCIDR (types.Networking_ c));
    "serviceCIDR=" +:+ showCIDR (types.ServiceCIDR (types.Networking_ c));
    "clusterNetworks=" +:+
      join ";" (map showClusterNetwork (types.ClusterNetworks (types.Networking_ c)));
    "machines=" +:+ join ";" (map showMachinePool (types.Machines c));
    "aws=" +:+ showPointer (types.AWS (types.Platform_ c));
    "libvirt=" +:+ showPointer (types.Libvirt (types.Platform_ c));
    "none=" +:+ showPointer (option_map (fun _ => "") (types.None (types.Platform_ c)));
    "openstack=" +:+ showPointer (types.OpenStack (types.Platform_ c));
    "pullSecret=" +:+ types.PullSecret c ].

Definition decodeLines (lines : list string) : option types.InstallConfig :=
  match lines with
  | [l1; l2; l3; l4; l5; l6; l7; l8; l9; l10; l11; l12; l13; l14] =>
      name ← dropPrefix "name=" l1;
      id ← dropPrefix "clusterID=" l2;
      key ← dropPrefix "sshKey=" l3;
      domain ← dropPrefix "baseDomain=" l4;
      type ← dropPrefix "networkType=" l5;
      machine ← dropPrefix "machineCIDR=" l6 ≫= readCIDR;
      service ← dropPrefix "serviceCIDR=" l7 ≫= readCIDR;
      networks ← dropPrefix "clusterNetworks=" l8 ≫= readList readClusterNetwork;
      machines ← dropPrefix "machines=" l9 ≫= readList readMachinePool;
      aws ← dropPrefix "aws=" l10 ≫= readPointer;
      lv ← dropPrefix "libvirt=" l11 ≫= readPointer;
      none ← dropPrefix "none=" l12 ≫= readPointer;
      openstack ← dropPrefix "openstack=" l13 ≫= readPointer;
      secret ← dropPrefix "pullSecret=" l14;
      Some {| types.ObjectMeta := {| metav1.Name := name |};
              types.ClusterID := id;
              types.SSHKey := key;
              types.BaseDomain := domain;
              types.Networking_ :=
                {| types.Type_ := type;
                   types.MachineCIDR := machine;
                   types.ServiceCIDR := service;
                   types.ClusterNetworks := networks |};
              types.Machines := machines;
              types.Platform_ :=
                {| types.AWS := aws; types.Libvirt := lv;
                   types.None := option_map (fun _ => tt) none;
                   types.OpenStack := openstack |};
              types.PullSecret := secret |}
  | _ => @None types.InstallConfig
  end.

Definition lineCodec : yaml.Codec := {|
  yaml.Marshal := fun config =>
    match config with
    | Some c => (bytes (join (String newline "") (encodeLines c)), None)
    | None => (bytes "null", None)
    end;
  yaml.Unmarshal := fun data config =>
    match decodeLines (splitOn newline (string_of_list_byte data)) with
    | Some c => (c, None)
    | None => (config, Some (New "yaml: unmarshal errors"))
    end
|}.

(** Modelled from the spec: persisting "the generated file(s) of this
    asset", each under its own name, into the storage the fetcher reads. *)
Definition store (files : list asset.File) : Directory :=
  {| entries := list_to_map
       (map (fun file => (asset.Filename file, inl (asset.Data file))) files) |}.

(** The asset after [Generate] on libvirt with the line codec, and the
    directory its files are persisted to. *)
Definition generatedLibvirt : InstallConfig :=
  finalState (Generate (YC := lineCodec) (sampleParents onlyLibvirt) emptyAsset).
Definition generatedDirectory : Directory := store (Files generatedLibvirt).

Definition generatedLibvirtConfig : types.InstallConfig :=
  default zeroInstallConfig (Config generatedLibvirt).
Definition generatedLibvirtFile : asset.File :=
  default {| asset.Filename := ""; asset.Data := [] |} (File generatedLibvirt).

(** A fetcher that reports install-config.yaml as not found and answers
    every other request with neither a file nor an error. *)
Inductive NilFetcher : Type := nilFetcher.

#[export] Instance NilFetcher_fetcher : asset.FileFetcher NilFetcher := fun _ name =>
  if String.eqb name installConfigFilename
  then (None, Some (PathError "open" name ENOENT))
  else (None, None).

(** The state after [Load] on a directory holding both names, and on one
    holding only the deprecated name. *)
Definition loadedBoth : World := finalState (Load bothFiles staleWorld).
Definition loadedDeprecated : World := finalState (Load deprecatedOnly staleWorld).

End Demo.

(** * Properties *)

(** ** Substrings of error messages *)

Lemma has_prefix_app p s t :
  has_prefix p s = true -> has_prefix p (s +:+ t) = true.
Proof.
  revert s. induction p as [|a p IH]; intros [|b s];
    cbn [has_prefix String.append]; try congruence.
  intros Hab. apply andb_prop in Hab as [Ha Hp].
  apply andb_true_intro. split; [exact Ha | apply IH, Hp].
Qed.

Lemma Contains_app_l s t sub :
  Contains s sub = true -> Contains (s +:+ t) sub = true.
Proof.
  induction s as [|c s IH].
  - cbn [Contains]. rewrite orb_false_r. intros Hp.
    destruct sub; [|discriminate Hp]. destruct t; reflexivity.
  - intros Hc. cbn [Contains] in Hc. apply orb_prop in Hc as [Hp | Hs].
    + pose proof (has_prefix_app sub (String c s) t Hp) as Hp'.
      change (String c s +:+ t) with (String c (s +:+ t)) in *.
      cbn [Contains]. rewrite Hp'. reflexivity.
    + change (String c s +:+ t) with (String c (s +:+ t)).
      cbn [Contains]. rewrite (IH Hs). apply orb_true_r.
Qed.

(** The text of a wrapped error starts with the context it was wrapped
    with, so whatever the context names, the text names. *)
Lemma Error_names_context cause msg sub :
  Contains msg sub = true -> Contains (Error (WithMessage cause msg)) sub = true.
Proof. intros Hc. cbn. apply Contains_app_l, Hc. Qed.

Section GenerateProperties.
Context {PD : PlatformDecls} {IPN : ipnet.Decl} {LV : libvirt.Decl} {YC : yaml.Codec}.

Ltac run_generate :=
  unfold Generate, switchPlatform, materialize, assignConfig, modify, get, panic,
    mbind, M_bind, mret, M_ret; cbn.

(** The four cases of the switch and its default, one equation each. *)
Lemma Generate_AWS parents a x :
  types.AWS (Platform (Get_platform parents)) = Some x ->
  Generate parents a =
    materialize (set_Machines (machinePools 3 3) (set_AWS (Some x) (initialConfig parents))) a.
Proof.
  intros E. run_generate. rewrite E. cbn.
  destruct (yaml.Marshal _) as [data [err|]]; reflexivity.
Qed.

Lemma Generate_Libvirt parents a x :
  types.AWS (Platform (Get_platform parents)) = None ->
  types.Libvirt (Platform (Get_platform parents)) = Some x ->
  Generate parents a =
    materialize (set_Machines (machinePools 1 1)
                   (set_MachineCIDR libvirt.DefaultMachineCIDR
                      (set_Libvirt (Some x) (initialConfig parents)))) a.
Proof.
  intros E1 E2. run_generate. rewrite E1, E2. cbn.
  destruct (yaml.Marshal _) as [data [err|]]; reflexivity.
Qed.

Lemma Generate_None parents a x :
  types.AWS (Platform (Get_platform parents)) = None ->
  types.Libvirt (Platform (Get_platform parents)) = None ->
  types.None (Platform (Get_platform parents)) = Some x ->
  Generate parents a =
    materialize (set_Machines (machinePools 3 3) (set_None (Some x) (initialConfig parents))) a.
Proof.
  intros E1 E2 E3. run_generate. rewrite E1, E2, E3. cbn.
  destruct (yaml.Marshal _) as [data [err|]]; reflexivity.
Qed.

Lemma Generate_OpenStack parents a x :
  types.AWS (Platform (Get_platform parents)) = None ->
  types.Libvirt (Platform (Get_platform parents)) = None ->
  types.None (Platform (Get_platform parents)) = None ->
  types.OpenStack (Platform (Get_platform parents)) = Some x ->
  Generate parents a =
    materialize (set_Machines (machinePools 3 3) (set_OpenStack (Some x) (initialConfig parents))) a.
Proof.
  intros E1 E2 E3 E4. run_generate. rewrite E1, E2, E3, E4. cbn.
  destruct (yaml.Marshal _) as [data [err|]]; reflexivity.
Qed.

Lemma Generate_unknown parents a :
  types.AWS (Platform (Get_platform parents)) = None ->
  types.Libvirt (Platform (Get_platform parents)) = None ->
  types.None (Platform (Get_platform parents)) = None ->
  types.OpenStack (Platform (Get_platform parents)) = None ->
  Generate parents a =
    Panicked "unknown platform type" (set_Config (Some (initialConfig parents)) a).
Proof.
  intros E1 E2 E3 E4. run_generate. rewrite E1, E2, E3, E4. reflexivity.
Qed.

(** [materialize] always returns, sets [Config] to its argument, and
    reports an error exactly when [yaml.Marshal] does. *)
Lemma materialize_returns cfg a :
  exists err a',
    materialize cfg a = Returned err a' /\ Config a' = Some cfg /\
    (err = None <-> (yaml.Marshal (Some cfg)).2 = None) /\
    (err = None ->
       File a' = Some {| asset.Filename := installConfigFilename;
                         asset.Data := (yaml.Marshal (Some cfg)).1 |}) /\
    (err <> None -> File a' = File a).
Proof.
  unfold materialize. destruct (yaml.Marshal (Some cfg)) as [data [e|]]; cbn.
  - eexists _, _. split; [reflexivity|]. repeat split; try congruence.
  - eexists _, _. split; [reflexivity|]. repeat split; try congruence.
Qed.

(** Case analysis on the four pointers of the platform of [parents]; each
    case is rewritten with the equation of [Generate] that applies. *)
Ltac platform_cases parents :=
  destruct (types.AWS (Platform (Get_platform parents))) as [aw|] eqn:Eaws;
  destruct (types.Libvirt (Platform (Get_platform parents))) as [lv|] eqn:Elibvirt;
  destruct (types.None (Platform (Get_platform parents))) as [no|] eqn:Enone;
  destruct (types.OpenStack (Platform (Get_platform parents))) as [os|] eqn:Eopenstack.

Ltac generate_equation parents a :=
  first
    [ rewrite (Generate_AWS parents a _ ltac:(eassumption))
    | rewrite (Generate_Libvirt parents a _ ltac:(eassumption) ltac:(eassumption))
    | rewrite (Generate_None parents a _ ltac:(eassumption) ltac:(eassumption)
                 ltac:(eassumption))
    | rewrite (Generate_OpenStack parents a _ ltac:(eassumption) ltac:(eassumption)
                 ltac:(eassumption) ltac:(eassumption))
    | rewrite (Generate_unknown parents a ltac:(eassumption) ltac:(eassumption)
                 ltac:(eassumption) ltac:(eassumption)) ].

Lemma populated_fields (p : types.Platform) :
  populated p =
    (isSet (types.AWS p) + isSet (types.Libvirt p)
     + isSet (types.None p) + isSet (types.OpenStack p))%nat.
Proof. reflexivity. Qed.

(** Whether [Generate] panics, and the configuration it synthesizes, depend
    on [parents] alone. *)
Lemma Generate_shape parents :
  (exists cfg, forall a, Generate parents a = materialize cfg a) \/
  (forall a, Generate parents a =
     Panicked "unknown platform type" (set_Config (Some (initialConfig parents)) a)).
Proof.
  platform_cases parents;
    solve [ left; eexists; intros a; generate_equation parents a; reflexivity
          | right; intros a; generate_equation parents a; reflexivity ].
Qed.

(** C1: when exactly one platform variant is populated, Generate returns
    and leaves a configuration with two machine pools; if the populated
    variant is libvirt both replica counts are 1 and the machine CIDR is
    libvirt's own, and otherwise (AWS, None, OpenStack) both replica counts
    are 3 and the machine CIDR is the global default 10.0.0.0/16. *)
Theorem C1_platform_defaults parents a :
  populated (Platform (Get_platform parents)) = 1%nat ->
  exists err a' cfg,
    Generate parents a = Returned err a' /\ Config a' = Some cfg /\
    (is_Some (types.Libvirt (Platform (Get_platform parents))) ->
       map types.Replicas (types.Machines cfg) = [Some 1; Some 1] /\
       types.MachineCIDR (types.Networking_ cfg) = libvirt.DefaultMachineCIDR) /\
    (types.Libvirt (Platform (Get_platform parents)) = None ->
       map types.Replicas (types.Machines cfg) = [Some 3; Some 3] /\
       types.MachineCIDR (types.Networking_ cfg) = ipnet.MustParseCIDR "10.0.0.0/16").
Proof.
  intros Hone. rewrite populated_fields in Hone.
  platform_cases parents; cbn in Hone; try discriminate Hone;
    generate_equation parents a;
    (match goal with
     | |- context [materialize ?c a] =>
         destruct (materialize_returns c a) as (err & a' & -> & HC & _)
     end);
    exists err, a'; eexists; (split; [reflexivity|]); (split; [exact HC|]);
    split; intros Hlv; try (destruct Hlv; discriminate); try discriminate;
    split; reflexivity.
Qed.

(** C5: when exactly one platform variant is populated, the synthesized
    configuration carries the platform of the input (so exactly one
    populated sub-configuration, the input's), network type OpenshiftSDN,
    service CIDR 172.30.0.0/16, the single cluster network 10.128.0.0/14
    with host-subnet length 9, and the two machine pools master and worker
    in that order. *)
Theorem C5_synthesized_invariants parents a :
  populated (Platform (Get_platform parents)) = 1%nat ->
  exists err a' cfg,
    Generate parents a = Returned err a' /\ Config a' = Some cfg /\
    types.Platform_ cfg = Platform (Get_platform parents) /\
    populated (types.Platform_ cfg) = 1%nat /\
    types.Type_ (types.Networking_ cfg) = "OpenshiftSDN" /\
    types.ServiceCIDR (types.Networking_ cfg) = ipnet.MustParseCIDR "172.30.0.0/16" /\
    types.ClusterNetworks (types.Networking_ cfg) =
      [ {| netopv1.CIDR := "10.128.0.0/14"; netopv1.HostSubnetLength := 9 |} ] /\
    map types.Name (types.Machines cfg) = ["master"; "worker"].
Proof.
  intros Hone.
  assert (Hkeep : forall q, q = Platform (Get_platform parents) ->
            populated q = 1%nat) by (intros q ->; exact Hone).
  rewrite populated_fields in Hone.
  platform_cases parents; cbn in Hone; try discriminate Hone;
    generate_equation parents a;
    (match goal with
     | |- context [materialize ?c a] =>
         destruct (materialize_returns c a) as (err & a' & -> & HC & _)
     end);
    exists err, a'; eexists; (split; [reflexivity|]); (split; [exact HC|]);
    (assert (Hplat : forall q : types.Platform,
               types.AWS q = types.AWS (Platform (Get_platform parents)) ->
               types.Libvirt q = types.Libvirt (Platform (Get_platform parents)) ->
               types.None q = types.None (Platform (Get_platform parents)) ->
               types.OpenStack q = types.OpenStack (Platform (Get_platform parents)) ->
               q = Platform (Get_platform parents))
       by (intros [] ; destruct (Platform (Get_platform parents)); cbn;
           intros; subst; reflexivity));
    (split; [apply Hplat; cbn; congruence|]);
    (split; [apply Hkeep, Hplat; cbn; congruence|]);
    repeat split; reflexivity.
Qed.

(** C4, as the code has it: with no platform variant populated Generate
    panics with "unknown platform type" and materializes no file; with at
    least one populated (exactly one, or several) it does not panic but
    returns, having synthesized the configuration of the first populated
    variant in the order AWS, Libvirt, None, OpenStack, and its error is nil
    exactly when serialization succeeds. *)
Theorem C4_panic_only_without_variant parents a :
  (populated (Platform (Get_platform parents)) = 0%nat ->
     exists a', Generate parents a = Panicked "unknown platform type" a' /\
                File a' = File a) /\
  (populated (Platform (Get_platform parents)) <> 0%nat ->
     exists err a' cfg,
       Generate parents a = Returned err a' /\ Config a' = Some cfg /\
       types.Platform_ cfg = firstPopulated (Platform (Get_platform parents)) /\
       (err = None <-> (yaml.Marshal (Some cfg)).2 = None)).
Proof.
  rewrite populated_fields.
  split; intros Hpop;
    platform_cases parents; cbn in Hpop; try discriminate Hpop; try congruence;
    generate_equation parents a.
  1: { eexists. split; reflexivity. }
  all: match goal with
       | |- context [materialize ?c ?a0] =>
           destruct (materialize_returns c a0) as (err & a' & -> & HC & Herr & _)
       end;
       exists err, a'; eexists; (split; [reflexivity|]); (split; [exact HC|]);
       (split; [|exact Herr]);
       unfold firstPopulated; rewrite ?Eaws, ?Elibvirt, ?Enone, ?Eopenstack;
       reflexivity.
Qed.

(** C8: Generate is a function of the dependency values alone.  If a run
    returns, a run from any other state of the asset returns the same
    error and leaves the same configuration; when the error is nil both
    leave the same file, named install-config.yaml, with the same bytes, and
    running again on the state the first run left changes nothing. *)
Theorem C8_generate_deterministic parents a1 a2 err a1' :
  Generate parents a1 = Returned err a1' ->
  exists a2',
    Generate parents a2 = Returned err a2' /\ Config a2' = Config a1' /\
    (err = None ->
       File a2' = File a1' /\
       (exists data, File a1' =
          Some {| asset.Filename := installConfigFilename; asset.Data := data |}) /\
       Generate parents a1' = Returned None a1').
Proof.
  intros Hrun.
  destruct (Generate_shape parents) as [[cfg Hcfg] | Hpanic];
    [| rewrite Hpanic in Hrun; discriminate Hrun].
  rewrite Hcfg in Hrun. rewrite !Hcfg.
  unfold materialize in *.
  destruct (yaml.Marshal (Some cfg)) as [data [e|]];
    injection Hrun as <- <-; eexists; (split; [reflexivity|]);
    (split; [reflexivity|]); intros Herr; try discriminate Herr.
  split; [reflexivity|]. split; [eexists; reflexivity | reflexivity].
Qed.

(** What a run of Generate that returns a nil error leaves in [File]. *)
Lemma Generate_success_file parents a a' :
  Generate parents a = Returned None a' ->
  exists data,
    File a' = Some {| asset.Filename := installConfigFilename; asset.Data := data |}.
Proof.
  intros Hrun.
  destruct (Generate_shape parents) as [[cfg Hcfg] | Hpanic];
    [| rewrite Hpanic in Hrun; discriminate Hrun].
  rewrite Hcfg in Hrun. unfold materialize in Hrun.
  destruct (yaml.Marshal (Some cfg)) as [data [e'|]]; [discriminate Hrun|].
  injection Hrun as <-. eexists. reflexivity.
Qed.

(** What a run of Generate that returns an error leaves behind: the file
    pointer as it was, and the configuration whose serialization failed. *)
Lemma Generate_error_state parents a e a' :
  Generate parents a = Returned (Some e) a' ->
  File a' = File a /\
  exists cfg cause,
    Config a' = Some cfg /\ (yaml.Marshal (Some cfg)).2 = Some cause /\
    e = errors.Wrap cause "failed to Marshal InstallConfig".
Proof.
  intros Hrun.
  destruct (Generate_shape parents) as [[cfg Hcfg] | Hpanic];
    [| rewrite Hpanic in Hrun; discriminate Hrun].
  rewrite Hcfg in Hrun. unfold materialize in Hrun.
  destruct (yaml.Marshal (Some cfg)) as [data [e'|]] eqn:Hm; [|discriminate Hrun].
  injection Hrun as <- <-. cbn. split; [reflexivity|].
  exists cfg, e'. rewrite Hm. repeat split; reflexivity.
Qed.

(** X1: the asset exposes no file while its file pointer is nil, and
    exactly one, named install-config.yaml, after a run of Generate that
    returned a nil error. *)
Theorem X1_files_after_generate parents a a' :
  Generate parents a = Returned None a' ->
  Files {| Config := Config a; File := None |} = [] /\
  exists data,
    Files a' = [ {| asset.Filename := "install-config.yaml"; asset.Data := data |} ].
Proof.
  intros Hrun. split; [reflexivity|].
  destruct (Generate_success_file parents a a' Hrun) as [data Hfile].
  exists data. unfold Files. rewrite Hfile. reflexivity.
Qed.

(** X2: whatever Generate does afterwards (return nil, return a
    serialization error, or panic for want of a platform), by then the
    asset's configuration pointer is set and the configuration carries the
    cluster name, cluster ID, SSH key, base domain and pull secret of the
    parents, whatever the asset held before. *)
Theorem X2_generate_copies_dependencies parents a :
  exists cfg,
    Config (finalState (Generate parents a)) = Some cfg /\
    metav1.Name (types.ObjectMeta cfg) = ClusterName (Get_clusterName parents) /\
    types.ClusterID cfg = ClusterID (Get_clusterID parents) /\
    types.SSHKey cfg = Key (Get_sshPublicKey parents) /\
    types.BaseDomain cfg = BaseDomain (Get_baseDomain parents) /\
    types.PullSecret cfg = PullSecret (Get_pullSecret parents).
Proof.
  platform_cases parents; generate_equation parents a;
    try (match goal with
         | |- context [materialize ?c ?a0] =>
             destruct (materialize_returns c a0) as (err & a' & -> & HC & _)
         end; cbn [finalState]; rewrite HC);
    eexists; (split; [reflexivity|]); repeat split; reflexivity.
Qed.

(** X3: after a run of Generate that returned a nil error, the asset's
    file holds exactly the bytes yaml.Marshal gives for the configuration
    the asset points to, and Marshal reports no error for it. *)
Theorem X3_file_serializes_config parents a a' :
  Generate parents a = Returned None a' ->
  exists cfg data,
    Config a' = Some cfg /\
    yaml.Marshal (Config a') = (data, None) /\
    File a' = Some {| asset.Filename := "install-config.yaml"; asset.Data := data |}.
Proof.
  intros Hrun.
  destruct (Generate_shape parents) as [[cfg Hcfg] | Hpanic];
    [| rewrite Hpanic in Hrun; discriminate Hrun].
  rewrite Hcfg in Hrun. unfold materialize in Hrun.
  destruct (yaml.Marshal (Some cfg)) as [data [e|]] eqn:Hm; [discriminate Hrun|].
  injection Hrun as <-. exists cfg, data. cbn. rewrite Hm. repeat split; reflexivity.
Qed.

(** X4: the libvirt defaults (one master, one worker, libvirt's machine
    CIDR) are applied exactly when the AWS pointer is nil and the libvirt
    pointer is not; whenever any platform pointer is set and that is not
    the case, also when libvirt is populated next to AWS, both pools get 3
    replicas and the machine CIDR is the global default. *)
Theorem X4_defaults_follow_first_variant parents a :
  populated (Platform (Get_platform parents)) <> 0%nat ->
  exists err a' cfg,
    Generate parents a = Returned err a' /\ Config a' = Some cfg /\
    (types.AWS (Platform (Get_platform parents)) = None /\
     is_Some (types.Libvirt (Platform (Get_platform parents))) ->
       types.Machines cfg = machinePools 1 1 /\
       types.MachineCIDR (types.Networking_ cfg) = libvirt.DefaultMachineCIDR) /\
    (is_Some (types.AWS (Platform (Get_platform parents))) \/
     types.Libvirt (Platform (Get_platform parents)) = None ->
       types.Machines cfg = machinePools 3 3 /\
       types.MachineCIDR (types.Networking_ cfg) = defaultMachineCIDR).
Proof.
  intros Hpop. rewrite populated_fields in Hpop.
  platform_cases parents; cbn in Hpop; try congruence;
    generate_equation parents a;
    (match goal with
     | |- context [materialize ?c ?a0] =>
         destruct (materialize_returns c a0) as (err & a' & -> & HC & _)
     end);
    exists err, a'; eexists; (split; [reflexivity|]); (split; [exact HC|]);
    (split;
     [ intros [Hn Hs]; try discriminate Hn; try (destruct Hs; discriminate);
       split; reflexivity
     | intros [Hs | Hn]; try discriminate Hn; try (destruct Hs; discriminate);
       split; reflexivity ]).
Qed.

End GenerateProperties.

Section LoadProperties.
Context {PD : PlatformDecls} {IPN : ipnet.Decl} {LV : libvirt.Decl}
  {YC : yaml.Codec} {VD : validation.Decl}.
Context {F : Type} {FF : asset.FileFetcher F}.

Ltac run_fetch :=
  unfold fetchInstallConfigFile, fetchLoop, logrus.Warnf, emit, modify, panic,
    mbind, M_bind, mret, M_ret; cbn.

(** The outcomes of file discovery, one equation for each way the two
    calls of the fetcher can go. *)
Lemma fetch_canonical_found (f : F) l file :
  asset.FetchByName f installConfigFilename = (file, None) ->
  fetchInstallConfigFile f l = Returned (file, None) (l ++ [Fetch installConfigFilename]).
Proof. intros E. run_fetch. rewrite E. reflexivity. Qed.

Lemma fetch_canonical_error (f : F) l x e :
  asset.FetchByName f installConfigFilename = (x, Some e) ->
  os.IsNotExist e = false ->
  fetchInstallConfigFile f l = Returned (None, Some e) (l ++ [Fetch installConfigFilename]).
Proof. intros E N. run_fetch. rewrite E. cbn. rewrite N. reflexivity. Qed.

Lemma fetch_deprecated_found (f : F) l x e file :
  asset.FetchByName f installConfigFilename = (x, Some e) ->
  os.IsNotExist e = true ->
  asset.FetchByName f deprecatedInstallConfigFilename = (Some file, None) ->
  fetchInstallConfigFile f l =
    Returned (Some (set_Filename installConfigFilename file), None)
      (l ++ [Fetch installConfigFilename; Fetch deprecatedInstallConfigFilename;
             Warning (deprecationWarning deprecatedInstallConfigFilename
                        installConfigFilename)]).
Proof.
  intros E N E'. run_fetch. rewrite E. cbn. rewrite N. cbn. rewrite E'. cbn.
  rewrite <- !app_assoc. reflexivity.
Qed.

Lemma fetch_deprecated_nil (f : F) l x e :
  asset.FetchByName f installConfigFilename = (x, Some e) ->
  os.IsNotExist e = true ->
  asset.FetchByName f deprecatedInstallConfigFilename = (None, None) ->
  fetchInstallConfigFile f l =
    Panicked nilDereference
      (l ++ [Fetch installConfigFilename; Fetch deprecatedInstallConfigFilename;
             Warning (deprecationWarning deprecatedInstallConfigFilename
                        installConfigFilename)]).
Proof.
  intros E N E'. run_fetch. rewrite E. cbn. rewrite N. cbn. rewrite E'. cbn.
  rewrite <- !app_assoc. reflexivity.
Qed.

Lemma fetch_deprecated_error (f : F) l x e y e' :
  asset.FetchByName f installConfigFilename = (x, Some e) ->
  os.IsNotExist e = true ->
  asset.FetchByName f deprecatedInstallConfigFilename = (y, Some e') ->
  os.IsNotExist e' = false ->
  fetchInstallConfigFile f l =
    Returned (None, Some e')
      (l ++ [Fetch installConfigFilename; Fetch deprecatedInstallConfigFilename]).
Proof.
  intros E N E' N'. run_fetch. rewrite E. cbn. rewrite N. cbn. rewrite E'. cbn.
  rewrite N'. cbn. rewrite <- !app_assoc. reflexivity.
Qed.

Lemma fetch_neither (f : F) l x e y e' :
  asset.FetchByName f installConfigFilename = (x, Some e) ->
  os.IsNotExist e = true ->
  asset.FetchByName f deprecatedInstallConfigFilename = (y, Some e') ->
  os.IsNotExist e' = true ->
  fetchInstallConfigFile f l =
    Returned (None, None)
      (l ++ [Fetch installConfigFilename; Fetch deprecatedInstallConfigFilename]).
Proof.
  intros E N E' N'. run_fetch. rewrite E. cbn. rewrite N. cbn. rewrite E'. cbn.
  rewrite N'. cbn. rewrite <- !app_assoc. reflexivity.
Qed.

(** [Load] after file discovery, one equation for each way it can end. *)
Ltac run_load E :=
  unfold Load, zoom, modify, mbind, M_bind, mret, M_ret; rewrite E; cbn.

Lemma Load_fetch_panicked (f : F) w v l' :
  fetchInstallConfigFile f (log w) = Panicked v l' ->
  Load f w = Panicked v (set_log l' w).
Proof. intros E. run_load E. reflexivity. Qed.

Lemma Load_no_file (f : F) w err l' :
  fetchInstallConfigFile f (log w) = Returned (None, err) l' ->
  Load f w = Returned (false, err) (set_log l' w).
Proof. intros E. run_load E. reflexivity. Qed.

Lemma Load_unmarshal_error (f : F) w file err0 l' config e :
  fetchInstallConfigFile f (log w) = Returned (Some file, err0) l' ->
  yaml.Unmarshal (asset.Data file) zeroInstallConfig = (config, Some e) ->
  Load f w = Returned (false, Some (errors.Wrapf e "failed to unmarshal")) (set_log l' w).
Proof. intros E U. run_load E. rewrite U. reflexivity. Qed.

Lemma Load_invalid (f : F) w file err0 l' config :
  fetchInstallConfigFile f (log w) = Returned (Some file, err0) l' ->
  yaml.Unmarshal (asset.Data file) zeroInstallConfig = (config, None) ->
  validation.ValidateInstallConfig config validation.NewValidValuesFetcher <> [] ->
  Load f w =
    Returned (false,
              Some (errors.Wrapf
                      (Aggregate (validation.ValidateInstallConfig config
                                    validation.NewValidValuesFetcher))
                      invalidFileMessage))
      (set_log l' w).
Proof.
  intros E U V. run_load E. rewrite U.
  destruct (validation.ValidateInstallConfig _ _); [congruence | reflexivity].
Qed.

Lemma Load_valid (f : F) w file err0 l' config :
  fetchInstallConfigFile f (log w) = Returned (Some file, err0) l' ->
  yaml.Unmarshal (asset.Data file) zeroInstallConfig = (config, None) ->
  validation.ValidateInstallConfig config validation.NewValidValuesFetcher = [] ->
  Load f w =
    Returned (true, None)
      {| receiver := {| Config := Some config; File := Some file |}; log := l' |}.
Proof. intros E U V. run_load E. rewrite U, V. reflexivity. Qed.

(** C2: once a file has been found and deserialized, Load reports success
    exactly when the validator's verdict is empty.  On an empty verdict it
    stores the file and the configuration; on any other verdict it returns
    found = false and the aggregate of the verdict wrapped with the message
    invalid "install-config.yaml" file, which names the canonical filename
    and not the deprecated one whichever name the file was found under, and
    the asset is left as it was. *)
Theorem C2_load_accepts_iff_verdict_empty (f : F) w file err0 l' config :
  fetchInstallConfigFile f (log w) = Returned (Some file, err0) l' ->
  yaml.Unmarshal (asset.Data file) zeroInstallConfig = (config, None) ->
  exists found err w',
    Load f w = Returned (found, err) w' /\
    (found = true <->
       validation.ValidateInstallConfig config validation.NewValidValuesFetcher = []) /\
    (validation.ValidateInstallConfig config validation.NewValidValuesFetcher = [] ->
       err = None /\
       w' = {| receiver := {| Config := Some config; File := Some file |}; log := l' |}) /\
    (validation.ValidateInstallConfig config validation.NewValidValuesFetcher <> [] ->
       err = Some (errors.Wrapf
                     (Aggregate (validation.ValidateInstallConfig config
                                   validation.NewValidValuesFetcher))
                     invalidFileMessage) /\
       receiver w' = receiver w) /\
    Contains invalidFileMessage installConfigFilename = true /\
    Contains invalidFileMessage deprecatedInstallConfigFilename = false /\
    (forall e, err = Some e -> Contains (Error e) installConfigFilename = true).
Proof.
  intros E U.
  destruct (validation.ValidateInstallConfig config validation.NewValidValuesFetcher)
    as [|fe rest] eqn:V.
  - eexists _, _, _. split; [apply (Load_valid f w file err0 l' config E U V)|].
    repeat split; try reflexivity; try congruence.
  - assert (V' : validation.ValidateInstallConfig config validation.NewValidValuesFetcher
                 <> []) by (rewrite V; discriminate).
    eexists _, _, _. split; [apply (Load_invalid f w file err0 l' config E U V')|].
    rewrite V. repeat split; try reflexivity; try discriminate; try congruence.
    intros e [= <-]. apply Error_names_context. reflexivity.
Qed.

(** C3: file discovery asks for install-config.yaml first.  If that call
    reports no error its file is returned as it is, install-config.yml is
    not asked for and nothing is logged, whatever else storage holds.  If
    it reports not-found and install-config.yml is found, the returned file
    is that one with its name rewritten to install-config.yaml, after
    exactly the two calls in that order and one deprecation warning. *)
Theorem C3_discovery_order (f : F) l :
  (forall file,
     asset.FetchByName f installConfigFilename = (file, None) ->
     fetchInstallConfigFile f l =
       Returned (file, None) (l ++ [Fetch "install-config.yaml"])) /\
  (forall x e file,
     asset.FetchByName f installConfigFilename = (x, Some e) ->
     os.IsNotExist e = true ->
     asset.FetchByName f deprecatedInstallConfigFilename = (Some file, None) ->
     fetchInstallConfigFile f l =
       Returned (Some {| asset.Filename := "install-config.yaml";
                         asset.Data := asset.Data file |}, None)
         (l ++ [Fetch "install-config.yaml"; Fetch "install-config.yml";
                Warning "Using deprecated install-config.yml file. Use install-config.yaml instead."])).
Proof.
  split.
  - intros file E. apply (fetch_canonical_found f l file E).
  - intros x e file E N E'. apply (fetch_deprecated_found f l x e file E N E').
Qed.

(** C6: when the fetcher reports not-found for both install-config.yaml and
    install-config.yml, Load returns found = false with a nil error, and the
    asset is left as it was. *)
Theorem C6_load_not_found (f : F) w x e y e' :
  asset.FetchByName f installConfigFilename = (x, Some e) ->
  os.IsNotExist e = true ->
  asset.FetchByName f deprecatedInstallConfigFilename = (y, Some e') ->
  os.IsNotExist e' = true ->
  Load f w =
    Returned (false, None)
      {| receiver := receiver w;
         log := log w ++ [Fetch "install-config.yaml"; Fetch "install-config.yml"] |}.
Proof.
  intros E N E' N'.
  apply Load_no_file, (fetch_neither f (log w) x e y e' E N E' N').
Qed.

(** Every way [Load] can return, read off the outcome of file discovery. *)
Lemma Load_returned (f : F) w found err w' :
  Load f w = Returned (found, err) w' ->
  (found = true /\ err = None) \/
  (found = false /\ receiver w' = receiver w).
Proof.
  unfold Load, zoom, modify, mbind, M_bind, mret, M_ret.
  destruct (fetchInstallConfigFile f (log w)) as [[[file|] e0] l'|v l']; cbn;
    [| intros [= <- <- <-]; right; split; reflexivity | discriminate].
  destruct (yaml.Unmarshal (asset.Data file) zeroInstallConfig) as [config [e|]];
    [intros [= <- <- <-]; right; split; reflexivity|].
  destruct (ToAggregate _); cbn; intros [= <- <- <-];
    [right | left]; split; reflexivity.
Qed.

(** C9, as the code has it: whenever Load returns an error it returns
    found = false and leaves the asset's Config and File as they were;
    whenever Generate returns a serialization error it leaves File as it
    was, while Config holds the synthesized configuration whose
    serialization failed. *)
Theorem C9_failure_keeps_file (f : F) w parents a :
  (forall found e w',
     Load f w = Returned (found, Some e) w' ->
     found = false /\ receiver w' = receiver w) /\
  (forall e a',
     Generate parents a = Returned (Some e) a' ->
     File a' = File a /\
     exists cfg cause,
       Config a' = Some cfg /\ (yaml.Marshal (Some cfg)).2 = Some cause /\
       e = errors.Wrap cause "failed to Marshal InstallConfig").
Proof.
  split.
  - intros found e w' Hload.
    destruct (Load_returned f w found (Some e) w' Hload) as [[_ Habs] | Hkeep];
      [discriminate Habs | exact Hkeep].
  - intros e a' Hrun. apply (Generate_error_state parents a e a' Hrun).
Qed.

(** C10: if the fetcher fails on install-config.yaml with an error that is
    not not-found, file discovery returns that error after that single call
    and Load returns it unwrapped with found = false, the asset unchanged.
    install-config.yml is asked for exactly when the call for
    install-config.yaml reported a not-found error. *)
Theorem C10_canonical_error_is_final (f : F) w :
  (forall x e,
     asset.FetchByName f installConfigFilename = (x, Some e) ->
     os.IsNotExist e = false ->
     fetchInstallConfigFile f (log w) =
       Returned (None, Some e) (log w ++ [Fetch "install-config.yaml"]) /\
     Load f w =
       Returned (false, Some e)
         {| receiver := receiver w; log := log w ++ [Fetch "install-config.yaml"] |}) /\
  (exists evs,
     finalState (fetchInstallConfigFile f (log w)) = log w ++ evs /\
     (In (Fetch "install-config.yml") evs <->
      exists x e, asset.FetchByName f installConfigFilename = (x, Some e) /\
                  os.IsNotExist e = true)).
Proof.
  split.
  - intros x e E N.
    pose proof (fetch_canonical_error f (log w) x e E N) as Hfetch.
    split; [exact Hfetch | apply Load_no_file, Hfetch].
  - destruct (asset.FetchByName f installConfigFilename) as [x [e|]] eqn:E.
    + destruct (os.IsNotExist e) eqn:N.
      * destruct (asset.FetchByName f deprecatedInstallConfigFilename)
          as [y [e'|]] eqn:E'.
        -- destruct (os.IsNotExist e') eqn:N'.
           ++ rewrite (fetch_neither f (log w) x e y e' E N E' N').
              eexists. split; [reflexivity|].
              split; [eauto | intros _; right; left; reflexivity].
           ++ rewrite (fetch_deprecated_error f (log w) x e y e' E N E' N').
              eexists. split; [reflexivity|].
              split; [eauto | intros _; right; left; reflexivity].
        -- destruct y as [file|].
           ++ rewrite (fetch_deprecated_found f (log w) x e file E N E').
              eexists. split; [reflexivity|].
              split; [eauto | intros _; right; left; reflexivity].
           ++ rewrite (fetch_deprecated_nil f (log w) x e E N E').
              eexists. split; [reflexivity|].
              split; [eauto | intros _; right; left; reflexivity].
      * rewrite (fetch_canonical_error f (log w) x e E N).
        eexists. split; [reflexivity|]. split.
        -- intros [Habs | []]. discriminate Habs.
        -- intros (x' & e'' & [= <- <-] & N'). congruence.
    + rewrite (fetch_canonical_found f (log w) x E).
      eexists. split; [reflexivity|]. split.
      * intros [Habs | []]. discriminate Habs.
      * intros (x' & e'' & [=] & _).
Qed.

(** C7, what the code does: for a file that was found and whose bytes fail
    to deserialize, Load returns found = false with the codec's error
    wrapped, never found = false with a nil error, and the asset is left as
    it was.  The context it wraps with is the fixed text failed to
    unmarshal, which names neither install-config.yaml nor
    install-config.yml. *)
Theorem C7_unmarshal_failure_context (f : F) w file err0 l' config e :
  fetchInstallConfigFile f (log w) = Returned (Some file, err0) l' ->
  yaml.Unmarshal (asset.Data file) zeroInstallConfig = (config, Some e) ->
  Load f w =
    Returned (false, Some (errors.Wrapf e "failed to unmarshal"))
      {| receiver := receiver w; log := l' |} /\
  errors.context (errors.Wrapf e "failed to unmarshal") = Some "failed to unmarshal" /\
  Contains "failed to unmarshal" installConfigFilename = false /\
  Contains "failed to unmarshal" deprecatedInstallConfigFilename = false.
Proof.
  intros E U. split; [apply (Load_unmarshal_error f w file err0 l' config e E U)|].
  repeat split; reflexivity.
Qed.

(** ** Every way file discovery and Load can end *)

Lemma fetch_outcomes (f : F) l :
  (exists file,
     asset.FetchByName f installConfigFilename = (file, None) /\
     fetchInstallConfigFile f l =
       Returned (file, None) (l ++ [Fetch installConfigFilename])) \/
  (exists e,
     failsWith f installConfigFilename e /\
     fetchInstallConfigFile f l =
       Returned (None, Some e) (l ++ [Fetch installConfigFilename])) \/
  (notFound f installConfigFilename /\ notFound f deprecatedInstallConfigFilename /\
   fetchInstallConfigFile f l =
     Returned (None, None)
       (l ++ [Fetch installConfigFilename; Fetch deprecatedInstallConfigFilename])) \/
  (notFound f installConfigFilename /\
   exists e,
     failsWith f deprecatedInstallConfigFilename e /\
     fetchInstallConfigFile f l =
       Returned (None, Some e)
         (l ++ [Fetch installConfigFilename; Fetch deprecatedInstallConfigFilename])) \/
  (notFound f installConfigFilename /\
   exists file,
     asset.FetchByName f deprecatedInstallConfigFilename = (Some file, None) /\
     fetchInstallConfigFile f l =
       Returned (Some (set_Filename installConfigFilename file), None)
         (l ++ discoveryEvents)) \/
  (notFound f installConfigFilename /\
   asset.FetchByName f deprecatedInstallConfigFilename = (None, None) /\
   fetchInstallConfigFile f l = Panicked nilDereference (l ++ discoveryEvents)).
Proof.
  unfold notFound, failsWith.
  destruct (asset.FetchByName f installConfigFilename) as [x [e|]] eqn:E.
  - destruct (os.IsNotExist e) eqn:N.
    + destruct (asset.FetchByName f deprecatedInstallConfigFilename)
        as [y [e'|]] eqn:E'.
      * destruct (os.IsNotExist e') eqn:N'.
        -- right; right; left. repeat split; eauto.
           apply (fetch_neither f l x e y e' E N E' N').
        -- right; right; right; left. split; [eauto|]. exists e'. split; [eauto|].
           apply (fetch_deprecated_error f l x e y e' E N E' N').
      * destruct y as [file|].
        -- right; right; right; right; left. split; [eauto|]. exists file.
           split; [reflexivity|]. apply (fetch_deprecated_found f l x e file E N E').
        -- right; right; right; right; right. split; [eauto|].
           split; [reflexivity|]. apply (fetch_deprecated_nil f l x e E N E').
    + right; left. exists e. split; [eauto|].
      apply (fetch_canonical_error f l x e E N).
  - left. exists x. split; [reflexivity|]. apply (fetch_canonical_found f l x E).
Qed.

Lemma Load_outcomes (f : F) w :
  (exists v l',
     fetchInstallConfigFile f (log w) = Panicked v l' /\
     Load f w = Panicked v (set_log l' w)) \/
  (exists err l',
     fetchInstallConfigFile f (log w) = Returned (None, err) l' /\
     Load f w = Returned (false, err) (set_log l' w)) \/
  (exists file err0 l' config cause,
     fetchInstallConfigFile f (log w) = Returned (Some file, err0) l' /\
     yaml.Unmarshal (asset.Data file) zeroInstallConfig = (config, Some cause) /\
     Load f w =
       Returned (false, Some (errors.Wrapf cause "failed to unmarshal")) (set_log l' w)) \/
  (exists file err0 l' config,
     fetchInstallConfigFile f (log w) = Returned (Some file, err0) l' /\
     yaml.Unmarshal (asset.Data file) zeroInstallConfig = (config, None) /\
     validation.ValidateInstallConfig config validation.NewValidValuesFetcher <> [] /\
     Load f w =
       Returned (false,
                 Some (errors.Wrapf
                         (Aggregate (validation.ValidateInstallConfig config
                                       validation.NewValidValuesFetcher))
                         invalidFileMessage))
         (set_log l' w)) \/
  (exists file err0 l' config,
     fetchInstallConfigFile f (log w) = Returned (Some file, err0) l' /\
     yaml.Unmarshal (asset.Data file) zeroInstallConfig = (config, None) /\
     validation.ValidateInstallConfig config validation.NewValidValuesFetcher = [] /\
     Load f w =
       Returned (true, None)
         {| receiver := {| Config := Some config; File := Some file |}; log := l' |}).
Proof.
  destruct (fetchInstallConfigFile f (log w)) as [[[file|] err0] l'|v l'] eqn:E.
  - destruct (yaml.Unmarshal (asset.Data file) zeroInstallConfig)
      as [config [cause|]] eqn:U.
    + right; right; left. exists file, err0, l', config, cause.
      repeat split; try reflexivity; [exact U|].
      apply (Load_unmarshal_error f w file err0 l' config cause E U).
    + destruct (validation.ValidateInstallConfig config validation.NewValidValuesFetcher)
        as [|fe rest] eqn:V.
      * right; right; right; right. exists file, err0, l', config.
        repeat split; try reflexivity; [exact U | exact V |].
        apply (Load_valid f w file err0 l' config E U V).
      * right; right; right; left. exists file, err0, l', config.
        assert (V' : validation.ValidateInstallConfig config
                       validation.NewValidValuesFetcher <> [])
          by (rewrite V; discriminate).
        split; [reflexivity|]. split; [exact U|]. split; [exact V'|].
        apply (Load_invalid f w file err0 l' config E U V').
  - right; left. exists err0, l'. split; [reflexivity|]. apply (Load_no_file f w err0 l' E).
  - left. exists v, l'. split; [reflexivity|]. apply (Load_fetch_panicked f w v l' E).
Qed.

(** Load adds to the log what file discovery adds, and nothing else. *)
Lemma Load_log (f : F) w :
  log (finalState (Load f w)) = finalState (fetchInstallConfigFile f (log w)).
Proof.
  destruct (Load_outcomes f w) as
    [ (v & l' & -> & ->)
    | [ (err & l' & -> & ->)
      | [ (file & err0 & l' & config & cause & -> & _ & ->)
        | [ (file & err0 & l' & config & -> & _ & _ & ->)
          | (file & err0 & l' & config & -> & _ & _ & ->) ]]]]; reflexivity.
Qed.

(** X5: whatever the fetcher answers, Load only appends to the log, and
    what it appends is install-config.yaml asked for, then possibly
    install-config.yml asked for, then possibly the deprecation warning: at
    least the first, never anything else, never in another order. *)
Theorem X5_load_events (f : F) w :
  exists evs,
    log (finalState (Load f w)) = log w ++ evs /\
    evs <> [] /\
    evs `prefix_of` discoveryEvents.
Proof.
  rewrite Load_log.
  destruct (fetch_outcomes f (log w)) as
    [ (file & _ & ->)
    | [ (e & _ & ->)
      | [ (_ & _ & ->)
        | [ (_ & e & _ & ->)
          | [ (_ & file & _ & ->) | (_ & _ & ->) ]]]]];
    cbn [finalState]; eexists; (split; [reflexivity|]); (split; [discriminate|]).
  - exists (tail discoveryEvents). reflexivity.
  - exists (tail discoveryEvents). reflexivity.
  - exists (drop 2 discoveryEvents). reflexivity.
  - exists (drop 2 discoveryEvents). reflexivity.
  - exists []. reflexivity.
  - exists []. reflexivity.
Qed.

(** X6: what file discovery returns comes from the fetcher.  It never
    returns a file together with an error; an error it returns is one the
    fetcher gave for one of the two names and is not a not-found error; a
    file it returns has the bytes the fetcher gave, under the canonical
    name if it was fetched under the deprecated one. *)
Theorem X6_discovery_result (f : F) l file err l' :
  fetchInstallConfigFile f l = Returned (file, err) l' ->
  (forall e, err = Some e ->
     file = None /\ os.IsNotExist e = false /\
     (failsWith f installConfigFilename e \/
      failsWith f deprecatedInstallConfigFilename e)) /\
  (forall fl, file = Some fl ->
     err = None /\
     (asset.FetchByName f installConfigFilename = (Some fl, None) \/
      exists fetched,
        asset.FetchByName f deprecatedInstallConfigFilename = (Some fetched, None) /\
        fl = {| asset.Filename := "install-config.yaml";
                asset.Data := asset.Data fetched |})).
Proof.
  intros Hrun.
  destruct (fetch_outcomes f l) as
    [ (file0 & E & Hf)
    | [ (e0 & Hfail & Hf)
      | [ (_ & _ & Hf)
        | [ (_ & e0 & Hfail & Hf)
          | [ (_ & file0 & E & Hf) | (_ & _ & Hf) ]]]]];
    rewrite Hf in Hrun; try discriminate Hrun;
    injection Hrun as <- <- <-; split;
    try (intros e [=]); try (intros fl [=]); subst.
  - split; [reflexivity|]. left. exact E.
  - pose proof Hfail as (x & _ & N). repeat split; auto.
  - pose proof Hfail as (x & _ & N). repeat split; auto.
  - split; [reflexivity|]. right. exists file0. split; [exact E | reflexivity].
Qed.

(** X7: Load panics in exactly one situation: the fetcher reports
    install-config.yaml as not found and answers the request for
    install-config.yml with neither a file nor an error.  The panic is a
    nil dereference, raised after the deprecation warning was logged, and
    the asset is left as it was. *)
Theorem X7_load_panics_iff (f : F) w v w' :
  Load f w = Panicked v w' <->
  notFound f installConfigFilename /\
  asset.FetchByName f deprecatedInstallConfigFilename = (None, None) /\
  v = nilDereference /\
  w' = {| receiver := receiver w; log := log w ++ discoveryEvents |}.
Proof.
  split.
  - intros Hpanic.
    destruct (Load_outcomes f w) as
      [ (v0 & l' & Hf & HL)
      | [ (err & l' & _ & HL)
        | [ (file & err0 & l' & config & cause & _ & _ & HL)
          | [ (file & err0 & l' & config & _ & _ & _ & HL)
            | (file & err0 & l' & config & _ & _ & _ & HL) ]]]];
      rewrite HL in Hpanic; try discriminate Hpanic.
    injection Hpanic as <- <-.
    destruct (fetch_outcomes f (log w)) as
      [ (file0 & _ & Hf')
      | [ (e0 & _ & Hf')
        | [ (_ & _ & Hf')
          | [ (_ & e0 & _ & Hf')
            | [ (_ & file0 & _ & Hf') | (Hn & E & Hf') ]]]]];
      rewrite Hf' in Hf; try discriminate Hf.
    injection Hf as <- <-. repeat split; auto.
  - intros ((x & e & E & N) & E' & -> & ->).
    apply Load_fetch_panicked, (fetch_deprecated_nil f (log w) x e E N E').
Qed.

Ltac load_outcomes f w HL :=
  destruct (Load_outcomes f w) as
    [ (?v & ?l' & ?Hf & HL)
    | [ (?err & ?l' & ?Hf & HL)
      | [ (?file & ?err0 & ?l' & ?config & ?cause & ?Hf & ?HU & HL)
        | [ (?file & ?err0 & ?l' & ?config & ?Hf & ?HU & ?HV & HL)
          | (?file & ?err0 & ?l' & ?config & ?Hf & ?HU & ?HV & HL) ]]]].

Ltac fetch_outcomes f l Hf' :=
  destruct (fetch_outcomes f l) as
    [ (?file0 & ?E & Hf')
    | [ (?e0 & ?Hfail & Hf')
      | [ (?Hn & ?Hn' & Hf')
        | [ (?Hn & ?e0 & ?Hfail & Hf')
          | [ (?Hn & ?file0 & ?E & Hf') | (?Hn & ?E & Hf') ]]]]].

(** X8: whenever Load reports found, its error is nil, both pointers of
    the asset are set, the configuration is what yaml.Unmarshal reads from
    the bytes of the stored file, the validator's verdict on it is empty,
    and Files returns exactly the stored file. *)
Theorem X8_accepted_is_validated (f : F) w err w' :
  Load f w = Returned (true, err) w' ->
  err = None /\
  exists file config,
    receiver w' = {| Config := Some config; File := Some file |} /\
    yaml.Unmarshal (asset.Data file) zeroInstallConfig = (config, None) /\
    validation.ValidateInstallConfig config validation.NewValidValuesFetcher = [] /\
    Files (receiver w') = [file].
Proof.
  intros Hload. load_outcomes f w HL; rewrite HL in Hload; try discriminate Hload.
  injection Hload as <- <-. split; [reflexivity|].
  exists file, config. repeat split; assumption.
Qed.

(** X9: Load reports not-found (found = false with a nil error) exactly
    when the fetcher answered install-config.yaml with neither a file nor
    an error, or reported both names as not found.  A file that was found
    and then rejected, and a fetcher error that is not not-found, never
    end as not-found. *)
Theorem X9_not_found_iff (f : F) w :
  (exists w', Load f w = Returned (false, None) w') <->
  asset.FetchByName f installConfigFilename = (None, None) \/
  (notFound f installConfigFilename /\ notFound f deprecatedInstallConfigFilename).
Proof.
  split.
  - intros [w' Hload]. load_outcomes f w HL; rewrite HL in Hload;
      try discriminate Hload.
    injection Hload as -> _.
    fetch_outcomes f (log w) Hf'; rewrite Hf' in Hf; try discriminate Hf.
    + injection Hf as -> _. left. exact E.
    + right. split; assumption.
  - intros [E | [(x & e & E & N) (y & e' & E' & N')]].
    + eexists. apply Load_no_file, (fetch_canonical_found f (log w) None E).
    + eexists. apply Load_no_file, (fetch_neither f (log w) x e y e' E N E' N').
Qed.


(** X11: Load reads back what Generate wrote.  If Generate returned a nil
    error, the fetcher serves the generated file under the name Generate
    gave it, the codec reads the generated configuration back from its
    bytes and the validator accepts that configuration, then Load reports
    found with a nil error after the single request for the canonical
    name, without any warning, and leaves the asset exactly as Generate
    left it. *)
Theorem X11_load_after_generate parents a a' (f : F) w config file :
  Generate parents a = Returned None a' ->
  Config a' = Some config ->
  File a' = Some file ->
  asset.FetchByName f (asset.Filename file) = (Some file, None) ->
  yaml.Unmarshal (asset.Data file) zeroInstallConfig = (config, None) ->
  validation.ValidateInstallConfig config validation.NewValidValuesFetcher = [] ->
  Load f w =
    Returned (true, None)
      {| receiver := a'; log := log w ++ [Fetch "install-config.yaml"] |}.
Proof.
  intros Hrun HC HF E U V.
  destruct (Generate_success_file parents a a' Hrun) as [data Hfile].
  rewrite HF in Hfile. injection Hfile as ->. cbn [asset.Filename asset.Data] in *.
  rewrite (Load_valid f w _ None _ config
             (fetch_canonical_found f (log w) _ E) U V).
  destruct a' as [c fl]. cbn in HC, HF. subst. reflexivity.
Qed.

(** X12: with a fetcher that names the files it returns after the name
    it was asked for, whenever Load reports found the one file Files
    returns is named install-config.yaml, also when it was read from
    install-config.yml. *)
Theorem X12_loaded_file_is_canonical (f : F) w err w' :
  respectsNames f ->
  Load f w = Returned (true, err) w' ->
  exists data,
    Files (receiver w') =
      [ {| asset.Filename := "install-config.yaml"; asset.Data := data |} ].
Proof.
  intros Hnames Hload.
  load_outcomes f w HL; rewrite HL in Hload; try discriminate Hload.
  injection Hload as _ <-.
  fetch_outcomes f (log w) Hf'; rewrite Hf' in Hf; try discriminate Hf.
  - injection Hf as -> _ _. pose proof (Hnames _ _ _ E) as Hname.
    destruct file as [name data]. cbn in Hname. subst.
    exists data. reflexivity.
  - injection Hf as <- _ _. exists (asset.Data file0). reflexivity.
Qed.

End LoadProperties.

(** * The theorems at concrete inputs *)

Import Demo.

Example ParseCIDR_default :
  ParseCIDR "10.0.0.0/16" = Some {| IP := [10; 0; 0; 0]; PrefixLength := 16 |}.
Proof. reflexivity. Qed.

Example ParseCIDR_rejects_octet : ParseCIDR "256.0.0.1/8" = None.
Proof. reflexivity. Qed.

Example Generate_libvirt_machineCIDR :
  (types.MachineCIDR ∘ types.Networking_) <$> Config (finalState
     (Generate (sampleParents onlyLibvirt) emptyAsset)) =
  Some {| IP := [192; 168; 126; 0]; PrefixLength := 24 |}.
Proof. vm_compute; reflexivity. Qed.

Example Generate_aws_file :
  File (finalState (Generate (sampleParents onlyAWS) emptyAsset)) =
  Some {| asset.Filename := "install-config.yaml"; asset.Data := bytes "name: demo" |}.
Proof. vm_compute; reflexivity. Qed.

Example Load_prefers_canonical :
  Load bothFiles emptyWorld =
  Returned (true, None)
    {| receiver := {| Config := Some (set_Name "demo" zeroInstallConfig);
                      File := Some {| asset.Filename := "install-config.yaml";
                                      asset.Data := bytes "name: demo" |} |};
       log := [Fetch "install-config.yaml"] |}.
Proof. vm_compute; reflexivity. Qed.

Example invalidFileMessage_text :
  invalidFileMessage =
  "invalid " +:+ String dquote ("install-config.yaml" +:+ String dquote " file").
Proof. reflexivity. Qed.

(** X1 on AWS, from an asset holding a stale file. *)
Lemma X1_witness :
  Generate (sampleParents onlyAWS) staleAsset = Returned None generatedAWS /\
  Files {| Config := Config staleAsset; File := None |} = [] /\
  exists data,
    Files generatedAWS =
      [ {| asset.Filename := "install-config.yaml"; asset.Data := data |} ].
Proof.
  split; [vm_compute; reflexivity|].
  apply (X1_files_after_generate (sampleParents onlyAWS) staleAsset generatedAWS).
  vm_compute; reflexivity.
Defined.

(** C1 at the parents whose platform is libvirt alone. *)
Lemma C1_witness :
  populated (Platform (Get_platform (sampleParents onlyLibvirt))) = 1%nat /\
  exists err a' cfg,
    Generate (sampleParents onlyLibvirt) emptyAsset = Returned err a' /\
    Config a' = Some cfg /\
    (is_Some (types.Libvirt (Platform (Get_platform (sampleParents onlyLibvirt)))) ->
       map types.Replicas (types.Machines cfg) = [Some 1; Some 1] /\
       types.MachineCIDR (types.Networking_ cfg) = libvirt.DefaultMachineCIDR) /\
    (types.Libvirt (Platform (Get_platform (sampleParents onlyLibvirt))) = None ->
       map types.Replicas (types.Machines cfg) = [Some 3; Some 3] /\
       types.MachineCIDR (types.Networking_ cfg) = ipnet.MustParseCIDR "10.0.0.0/16").
Proof.
  split; [reflexivity|].
  apply (C1_platform_defaults (sampleParents onlyLibvirt) emptyAsset). reflexivity.
Defined.

(** With AWS and libvirt both populated, Generate does not panic: it
    returns a nil error and the configuration of AWS alone. *)
Lemma C4_counterexample :
  populated (Platform (Get_platform (sampleParents awsAndLibvirt))) = 2%nat /\
  exists a',
    Generate (sampleParents awsAndLibvirt) emptyAsset = Returned None a' /\
    types.Platform_ <$> Config a' = Some onlyAWS.
Proof. split; [reflexivity|]. eexists. split; vm_compute; reflexivity. Defined.

(** C4 at a platform with no variant and at one with two. *)
Lemma C4_witness :
  (populated (Platform (Get_platform (sampleParents zeroPlatform))) = 0%nat /\
   exists a', Generate (sampleParents zeroPlatform) emptyAsset =
                Panicked "unknown platform type" a' /\
              File a' = File emptyAsset) /\
  (populated (Platform (Get_platform (sampleParents awsAndLibvirt))) <> 0%nat /\
   exists err a' cfg,
     Generate (sampleParents awsAndLibvirt) emptyAsset = Returned err a' /\
     Config a' = Some cfg /\
     types.Platform_ cfg = firstPopulated (Platform (Get_platform (sampleParents awsAndLibvirt))) /\
     (err = None <-> (yaml.Marshal (Some cfg)).2 = None)).
Proof.
  split.
  - split; [reflexivity|].
    apply (proj1 (C4_panic_only_without_variant (sampleParents zeroPlatform) emptyAsset)).
    reflexivity.
  - split; [discriminate|].
    apply (proj2 (C4_panic_only_without_variant (sampleParents awsAndLibvirt) emptyAsset)).
    discriminate.
Defined.

(** C5 at the parents whose platform is OpenStack alone. *)
Lemma C5_witness :
  populated (Platform (Get_platform (sampleParents onlyOpenStack))) = 1%nat /\
  exists err a' cfg,
    Generate (sampleParents onlyOpenStack) emptyAsset = Returned err a' /\
    Config a' = Some cfg /\
    types.Platform_ cfg = Platform (Get_platform (sampleParents onlyOpenStack)) /\
    populated (types.Platform_ cfg) = 1%nat /\
    types.Type_ (types.Networking_ cfg) = "OpenshiftSDN" /\
    types.ServiceCIDR (types.Networking_ cfg) = ipnet.MustParseCIDR "172.30.0.0/16" /\
    types.ClusterNetworks (types.Networking_ cfg) =
      [ {| netopv1.CIDR := "10.128.0.0/14"; netopv1.HostSubnetLength := 9 |} ] /\
    map types.Name (types.Machines cfg) = ["master"; "worker"].
Proof.
  split; [reflexivity|].
  apply (C5_synthesized_invariants (sampleParents onlyOpenStack) emptyAsset). reflexivity.
Defined.

(** C8 on AWS, from an empty asset and from one holding a stale file. *)
Lemma C8_witness :
  Generate (sampleParents onlyAWS) emptyAsset = Returned None generatedAWS /\
  exists a2',
    Generate (sampleParents onlyAWS) staleAsset = Returned None a2' /\
    Config a2' = Config generatedAWS /\
    (@None error = None ->
       File a2' = File generatedAWS /\
       (exists data, File generatedAWS =
          Some {| asset.Filename := installConfigFilename; asset.Data := data |}) /\
       Generate (sampleParents onlyAWS) generatedAWS = Returned None generatedAWS).
Proof.
  split; [vm_compute; reflexivity|].
  apply (C8_generate_deterministic (sampleParents onlyAWS) emptyAsset staleAsset
           None generatedAWS).
  vm_compute; reflexivity.
Defined.

(** C2 at a directory whose only file has the deprecated name and no
    cluster name, which the validator rejects. *)
Lemma C2_witness :
  (fetchInstallConfigFile namelessDeprecated (log staleWorld) =
     Returned (Some namelessFile, None) deprecatedEvents /\
   yaml.Unmarshal (asset.Data namelessFile) zeroInstallConfig = (namelessConfig, None)) /\
  exists found err w',
    Load namelessDeprecated staleWorld = Returned (found, err) w' /\
    (found = true <->
       validation.ValidateInstallConfig namelessConfig validation.NewValidValuesFetcher = []) /\
    (validation.ValidateInstallConfig namelessConfig validation.NewValidValuesFetcher = [] ->
       err = None /\
       w' = {| receiver := {| Config := Some namelessConfig; File := Some namelessFile |};
               log := deprecatedEvents |}) /\
    (validation.ValidateInstallConfig namelessConfig validation.NewValidValuesFetcher <> [] ->
       err = Some (errors.Wrapf
                     (Aggregate (validation.ValidateInstallConfig namelessConfig
                                   validation.NewValidValuesFetcher))
                     invalidFileMessage) /\
       receiver w' = receiver staleWorld) /\
    Contains invalidFileMessage installConfigFilename = true /\
    Contains invalidFileMessage deprecatedInstallConfigFilename = false /\
    (forall e, err = Some e -> Contains (Error e) installConfigFilename = true).
Proof.
  split; [split; vm_compute; reflexivity|].
  apply (C2_load_accepts_iff_verdict_empty namelessDeprecated staleWorld
           namelessFile None deprecatedEvents namelessConfig);
    vm_compute; reflexivity.
Defined.

(** C3 at a directory holding both names and at one holding only the
    deprecated name. *)
Lemma C3_witness :
  (asset.FetchByName bothFiles installConfigFilename =
     (Some {| asset.Filename := "install-config.yaml"; asset.Data := bytes "name: demo" |},
      None) /\
   fetchInstallConfigFile bothFiles [] =
     Returned (Some {| asset.Filename := "install-config.yaml";
                       asset.Data := bytes "name: demo" |}, None)
       ([] ++ [Fetch "install-config.yaml"])) /\
  (asset.FetchByName deprecatedOnly installConfigFilename =
     (None, Some (PathError "open" "install-config.yaml" ENOENT)) /\
   asset.FetchByName deprecatedOnly deprecatedInstallConfigFilename =
     (Some {| asset.Filename := "install-config.yml"; asset.Data := bytes "name: old" |},
      None) /\
   fetchInstallConfigFile deprecatedOnly [] =
     Returned (Some {| asset.Filename := "install-config.yaml";
                       asset.Data := bytes "name: old" |}, None)
       ([] ++ deprecatedEvents)).
Proof.
  split.
  - split; [vm_compute; reflexivity|].
    apply (proj1 (C3_discovery_order bothFiles [])).
    vm_compute; reflexivity.
  - split; [vm_compute; reflexivity|]. split; [vm_compute; reflexivity|].
    apply (proj2 (C3_discovery_order deprecatedOnly []) None
             (PathError "open" "install-config.yaml" ENOENT)
             {| asset.Filename := "install-config.yml"; asset.Data := bytes "name: old" |});
      vm_compute; reflexivity.
Defined.

(** C6 at the empty directory. *)
Lemma C6_witness :
  (asset.FetchByName noFiles installConfigFilename =
     (None, Some (PathError "open" "install-config.yaml" ENOENT)) /\
   asset.FetchByName noFiles deprecatedInstallConfigFilename =
     (None, Some (PathError "open" "install-config.yml" ENOENT))) /\
  Load noFiles staleWorld =
    Returned (false, None)
      {| receiver := receiver staleWorld;
         log := log staleWorld ++ [Fetch "install-config.yaml"; Fetch "install-config.yml"] |}.
Proof.
  split; [split; vm_compute; reflexivity|].
  apply (C6_load_not_found noFiles staleWorld
           None (PathError "open" "install-config.yaml" ENOENT)
           None (PathError "open" "install-config.yml" ENOENT));
    vm_compute; reflexivity.
Defined.

(** C7 at a directory whose install-config.yaml does not deserialize. *)
Lemma C7_witness :
  (fetchInstallConfigFile garbageCanonical (log staleWorld) =
     Returned (Some garbageFile, None) [Fetch "install-config.yaml"] /\
   yaml.Unmarshal (asset.Data garbageFile) zeroInstallConfig =
     (zeroInstallConfig, Some (New "yaml: unmarshal errors"))) /\
  Load garbageCanonical staleWorld =
    Returned (false, Some (errors.Wrapf (New "yaml: unmarshal errors") "failed to unmarshal"))
      {| receiver := receiver staleWorld; log := [Fetch "install-config.yaml"] |} /\
  errors.context (errors.Wrapf (New "yaml: unmarshal errors") "failed to unmarshal") =
    Some "failed to unmarshal" /\
  Contains "failed to unmarshal" installConfigFilename = false /\
  Contains "failed to unmarshal" deprecatedInstallConfigFilename = false.
Proof.
  split; [split; vm_compute; reflexivity|].
  apply (C7_unmarshal_failure_context garbageCanonical staleWorld garbageFile None
           [Fetch "install-config.yaml"] zeroInstallConfig (New "yaml: unmarshal errors"));
    vm_compute; reflexivity.
Defined.

(** With a codec whose Marshal fails, Generate returns the serialization
    error and yet the asset, which held no configuration, now holds the
    synthesized one. *)
Lemma C9_counterexample :
  Config emptyAsset = None /\
  exists e a' cfg,
    Generate (YC := failingCodec) (sampleParents onlyAWS) emptyAsset = Returned (Some e) a' /\
    Config a' = Some cfg /\
    types.Machines cfg = machinePools 3 3 /\
    types.Platform_ cfg = onlyAWS.
Proof.
  split; [reflexivity|]. eexists _, _, _.
  split; [vm_compute; reflexivity|]. repeat split; reflexivity.
Defined.

(** C9 at a directory whose install-config.yaml cannot be read, and at a
    codec whose Marshal fails. *)
Lemma C9_witness :
  (Load unreadableCanonical staleWorld =
     Returned (false, Some (PathError "open" "install-config.yaml" EACCES))
       {| receiver := staleAsset; log := [Fetch "install-config.yaml"] |} /\
   false = false /\
   receiver {| receiver := staleAsset; log := [Fetch "install-config.yaml"] |} =
     receiver staleWorld) /\
  (Generate (YC := failingCodec) (sampleParents onlyAWS) staleAsset =
     Returned (Some (errors.Wrap (New "json: unsupported type")
                       "failed to Marshal InstallConfig")) failedAsset /\
   File failedAsset = File staleAsset /\
   exists cfg cause,
     Config failedAsset = Some cfg /\
     (yaml.Marshal (Codec := failingCodec) (Some cfg)).2 = Some cause /\
     errors.Wrap (New "json: unsupported type") "failed to Marshal InstallConfig" =
       errors.Wrap cause "failed to Marshal InstallConfig").
Proof.
  split.
  - split; [vm_compute; reflexivity|].
    apply (proj1 (C9_failure_keeps_file unreadableCanonical staleWorld
                    (sampleParents onlyAWS) staleAsset)
             false (PathError "open" "install-config.yaml" EACCES)
             {| receiver := staleAsset; log := [Fetch "install-config.yaml"] |}).
    vm_compute; reflexivity.
  - split; [vm_compute; reflexivity|].
    apply (proj2 (C9_failure_keeps_file (YC := failingCodec) unreadableCanonical staleWorld
                    (sampleParents onlyAWS) staleAsset)
             (errors.Wrap (New "json: unsupported type") "failed to Marshal InstallConfig")
             failedAsset).
    vm_compute; reflexivity.
Defined.

(** C10 at a directory whose install-config.yaml cannot be read while
    install-config.yml is present. *)
Lemma C10_witness :
  (asset.FetchByName unreadableCanonical installConfigFilename =
     (None, Some (PathError "open" "install-config.yaml" EACCES)) /\
   os.IsNotExist (PathError "open" "install-config.yaml" EACCES) = false) /\
  fetchInstallConfigFile unreadableCanonical (log staleWorld) =
    Returned (None, Some (PathError "open" "install-config.yaml" EACCES))
      (log staleWorld ++ [Fetch "install-config.yaml"]) /\
  Load unreadableCanonical staleWorld =
    Returned (false, Some (PathError "open" "install-config.yaml" EACCES))
      {| receiver := receiver staleWorld;
         log := log staleWorld ++ [Fetch "install-config.yaml"] |}.
Proof.
  split; [split; vm_compute; reflexivity|].
  apply (proj1 (C10_canonical_error_is_final unreadableCanonical staleWorld)
           None (PathError "open" "install-config.yaml" EACCES));
    vm_compute; reflexivity.
Defined.

(** X3 on AWS, from an asset holding a stale file. *)
Lemma X3_witness :
  Generate (sampleParents onlyAWS) staleAsset = Returned None generatedAWS /\
  exists cfg data,
    Config generatedAWS = Some cfg /\
    yaml.Marshal (Config generatedAWS) = (data, None) /\
    File generatedAWS =
      Some {| asset.Filename := "install-config.yaml"; asset.Data := data |}.
Proof.
  split; [vm_compute; reflexivity|].
  apply (X3_file_serializes_config (sampleParents onlyAWS) staleAsset generatedAWS).
  vm_compute; reflexivity.
Defined.

(** X4 at a platform with AWS and libvirt both populated. *)
Lemma X4_witness :
  populated (Platform (Get_platform (sampleParents awsAndLibvirt))) <> 0%nat /\
  exists err a' cfg,
    Generate (sampleParents awsAndLibvirt) emptyAsset = Returned err a' /\
    Config a' = Some cfg /\
    (types.AWS (Platform (Get_platform (sampleParents awsAndLibvirt))) = None /\
     is_Some (types.Libvirt (Platform (Get_platform (sampleParents awsAndLibvirt)))) ->
       types.Machines cfg = machinePools 1 1 /\
       types.MachineCIDR (types.Networking_ cfg) = libvirt.DefaultMachineCIDR) /\
    (is_Some (types.AWS (Platform (Get_platform (sampleParents awsAndLibvirt)))) \/
     types.Libvirt (Platform (Get_platform (sampleParents awsAndLibvirt))) = None ->
       types.Machines cfg = machinePools 3 3 /\
       types.MachineCIDR (types.Networking_ cfg) = defaultMachineCIDR).
Proof.
  split; [discriminate|].
  apply (X4_defaults_follow_first_variant (sampleParents awsAndLibvirt) emptyAsset).
  discriminate.
Defined.

(** X6 at a directory holding only the deprecated name. *)
Lemma X6_witness :
  fetchInstallConfigFile deprecatedOnly [] =
    Returned (Some {| asset.Filename := "install-config.yaml";
                      asset.Data := bytes "name: old" |}, None) deprecatedEvents /\
  (forall e, @None error = Some e ->
     Some {| asset.Filename := "install-config.yaml"; asset.Data := bytes "name: old" |}
       = None /\
     os.IsNotExist e = false /\
     (failsWith deprecatedOnly installConfigFilename e \/
      failsWith deprecatedOnly deprecatedInstallConfigFilename e)) /\
  (forall fl,
     Some {| asset.Filename := "install-config.yaml"; asset.Data := bytes "name: old" |}
       = Some fl ->
     @None error = None /\
     (asset.FetchByName deprecatedOnly installConfigFilename = (Some fl, None) \/
      exists fetched,
        asset.FetchByName deprecatedOnly deprecatedInstallConfigFilename =
          (Some fetched, None) /\
        fl = {| asset.Filename := "install-config.yaml";
                asset.Data := asset.Data fetched |})).
Proof.
  split; [vm_compute; reflexivity|].
  apply (X6_discovery_result deprecatedOnly []
           (Some {| asset.Filename := "install-config.yaml";
                    asset.Data := bytes "name: old" |})
           None deprecatedEvents).
  vm_compute; reflexivity.
Defined.

(** X7 at the fetcher that answers the deprecated name with nil and nil. *)
Lemma X7_witness :
  (notFound nilFetcher installConfigFilename /\
   asset.FetchByName nilFetcher deprecatedInstallConfigFilename = (None, None)) /\
  Load nilFetcher staleWorld =
    Panicked nilDereference
      {| receiver := receiver staleWorld; log := log staleWorld ++ discoveryEvents |}.
Proof.
  assert (Hnf : notFound nilFetcher installConfigFilename).
  { exists None, (PathError "open" "install-config.yaml" ENOENT).
    split; reflexivity. }
  split; [split; [exact Hnf | reflexivity]|].
  apply (proj2 (X7_load_panics_iff nilFetcher staleWorld nilDereference
                  {| receiver := receiver staleWorld;
                     log := log staleWorld ++ discoveryEvents |})).
  repeat split; [exact Hnf].
Defined.

(** X8 at a directory holding both names. *)
Lemma X8_witness :
  Load bothFiles staleWorld = Returned (true, None) loadedBoth /\
  @None error = None /\
  exists file config,
    receiver loadedBoth = {| Config := Some config; File := Some file |} /\
    yaml.Unmarshal (asset.Data file) zeroInstallConfig = (config, None) /\
    validation.ValidateInstallConfig config validation.NewValidValuesFetcher = [] /\
    Files (receiver loadedBoth) = [file].
Proof.
  split; [vm_compute; reflexivity|].
  apply (X8_accepted_is_validated bothFiles staleWorld None loadedBoth).
  vm_compute; reflexivity.
Defined.

(** X9 at the empty directory. *)
Lemma X9_witness :
  (notFound noFiles installConfigFilename /\
   notFound noFiles deprecatedInstallConfigFilename) /\
  exists w', Load noFiles staleWorld = Returned (false, None) w'.
Proof.
  assert (Hc : notFound noFiles installConfigFilename).
  { exists None, (PathError "open" "install-config.yaml" ENOENT).
    split; vm_compute; reflexivity. }
  assert (Hd : notFound noFiles deprecatedInstallConfigFilename).
  { exists None, (PathError "open" "install-config.yml" ENOENT).
    split; vm_compute; reflexivity. }
  split; [split; assumption|].
  apply (proj2 (X9_not_found_iff noFiles staleWorld)).
  right. split; assumption.
Defined.


(** X11 on libvirt with the line codec: the generated file, persisted to a
    directory, is loaded back into the asset Generate left. *)
Lemma X11_witness :
  (Generate (YC := lineCodec) (sampleParents onlyLibvirt) emptyAsset =
     Returned None generatedLibvirt /\
   Config generatedLibvirt = Some generatedLibvirtConfig /\
   File generatedLibvirt = Some generatedLibvirtFile /\
   asset.FetchByName generatedDirectory (asset.Filename generatedLibvirtFile) =
     (Some generatedLibvirtFile, None) /\
   yaml.Unmarshal (Codec := lineCodec) (asset.Data generatedLibvirtFile)
     zeroInstallConfig = (generatedLibvirtConfig, None) /\
   validation.ValidateInstallConfig generatedLibvirtConfig
     validation.NewValidValuesFetcher = []) /\
  Load (YC := lineCodec) generatedDirectory staleWorld =
    Returned (true, None)
      {| receiver := generatedLibvirt;
         log := log staleWorld ++ [Fetch "install-config.yaml"] |}.
Proof.
  split; [repeat split; vm_compute; reflexivity|].
  apply (X11_load_after_generate (YC := lineCodec) (sampleParents onlyLibvirt)
           emptyAsset generatedLibvirt generatedDirectory staleWorld
           generatedLibvirtConfig generatedLibvirtFile);
    vm_compute; reflexivity.
Defined.

(** A directory names every file it returns after the name asked for. *)
Lemma Directory_respects_names (d : Directory) : respectsNames d.
Proof.
  intros name file err. unfold asset.FetchByName, Directory_fetcher.
  destruct (entries d !! name) as [[data|errno]|]; intros [= <- _]; reflexivity.
Qed.

(** X12 at a directory holding only the deprecated name. *)
Lemma X12_witness :
  (respectsNames deprecatedOnly /\
   Load deprecatedOnly staleWorld = Returned (true, None) loadedDeprecated) /\
  exists data,
    Files (receiver loadedDeprecated) =
      [ {| asset.Filename := "install-config.yaml"; asset.Data := data |} ].
Proof.
  split; [split; [apply Directory_respects_names | vm_compute; reflexivity]|].
  apply (X12_loaded_file_is_canonical deprecatedOnly staleWorld None loadedDeprecated
           (Directory_respects_names deprecatedOnly)).
  vm_compute; reflexivity.
Defined.
